(** * PropertyPulse (app.py): price estimation and derived metrics

    A shallow embedding of the computational core of [app.py]: the start-up
    loading of the model and the column list, the feature vector built for
    the regression model, the price per square foot, the ROI projection, the
    seeded environmental figures and the currency formatter.

    Conventions of the embedding:
    - A Python [str] is the list of its Unicode code points ([pystr]).
    - A finite [float] / [np.float64] is modelled by the exact rational it
      denotes ([Q]); the rounding error of the individual floating-point
      operations and the sign of zero are not modelled.  The non-finite
      results that NumPy returns instead of raising (division by zero) are
      explicit ([float64]).
    - Exceptions are values ([exn]); code that may raise returns a [result],
      and the script itself runs in a small monad ([Script]) over the state it mutates
      (NumPy's global generator and the widgets written to the page).
    - Library code that the script only calls (the pickled model, [pickle],
      [json], the Unicode tables behind [float(str)]) is a parameter. *)

From Stdlib Require Import ZArith QArith Qround Qabs Lia Lqa List String Ascii.
From Stdlib Require Import DecimalPos DecimalN.
From stdpp Require Import base list.

Set Default Proof Using "Type".

(** ** Python values and exceptions *)

Definition pystr := list Z.

(** An ASCII literal as a Python string. *)
Definition py (s : string) : pystr :=
  map (fun a => Z.of_nat (nat_of_ascii a)) (list_ascii_of_string s).

(** [ord(c)]: a character is its code point. *)
Definition ord (c : Z) : Z := c.

Inductive float64 :=
| Fin (q : Q)
| PosInf
| NegInf
| NaN.

#[warnings="-register-all"]
Inductive pyobj :=
| PyNone
| PyBool (b : bool)
| PyInt (z : Z)
| PyFloat (f : float64)
| PyStr (s : pystr)
| PyList (l : list pyobj)
| PyDict (kv : list (pystr * pyobj)).

(** The exception classes the script can meet; all derive from
    [Exception]. *)
Inductive exn :=
| IndexError
| ValueError
| TypeError
| KeyError
| AttributeError
| OverflowError
| OSError
| EOFError
| UnpicklingError
| JSONDecodeError
| UnicodeDecodeError.

(** [isinstance(e, ValueError)]: [JSONDecodeError] and [UnicodeDecodeError]
    are subclasses of [ValueError]. *)
Definition is_ValueError (e : exn) : bool :=
  match e with
  | ValueError | JSONDecodeError | UnicodeDecodeError => true
  | _ => false
  end.

Definition is_TypeError (e : exn) : bool :=
  match e with
  | TypeError => true
  | _ => false
  end.

Inductive result (A : Type) :=
| Ok (a : A)
| Raise (e : exn).
Arguments Ok {A} a.
Arguments Raise {A} e.

Definition rbind {A B} (r : result A) (k : A -> result B) : result B :=
  match r with
  | Ok a => k a
  | Raise e => Raise e
  end.

#[export] Instance result_ret : MRet result := @Ok.
#[export] Instance result_bind : MBind result := fun A B k r => rbind r k.

(** ** Sequences: [len], [list.index], [str.index], item assignment *)

(** [a == b] for a list element [a] and a string [b]. *)
Definition py_eq_str (a : pyobj) (b : pystr) : bool :=
  match a with
  | PyStr s => bool_decide (s = b)
  | _ => false
  end.

(** First position at which [p] holds. *)
Fixpoint find_index {A} (p : A -> bool) (l : list A) : option nat :=
  match l with
  | [] => None
  | a :: l' => if p a then Some 0%nat else S <$> find_index p l'
  end.

Fixpoint is_prefix (sub s : pystr) : bool :=
  match sub, s with
  | [], _ => true
  | _ :: _, [] => false
  | a :: sub', b :: s' => bool_decide (a = b) && is_prefix sub' s'
  end.

(** [s.find(sub)] on strings: the lowest offset at which [sub] occurs. *)
Fixpoint str_find (sub s : pystr) : option nat :=
  if is_prefix sub s then Some 0%nat
  else match s with
       | [] => None
       | _ :: s' => S <$> str_find sub s'
       end.

(** [len(obj)]. *)
Definition py_len (obj : pyobj) : result nat :=
  match obj with
  | PyStr s => Ok (length s)
  | PyList l => Ok (length l)
  | PyDict kv => Ok (length kv)
  | _ => Raise TypeError
  end.

(** [obj.index(v)] for a string [v]: [list.index] looks for the first equal
    element, [str.index] for the first occurrence of the substring; both raise
    [ValueError] when there is none; other objects have no such method. *)
Definition py_index (obj : pyobj) (v : pystr) : result nat :=
  match obj with
  | PyList l =>
      match find_index (fun a => py_eq_str a v) l with
      | Some i => Ok i
      | None => Raise ValueError
      end
  | PyStr s =>
      match str_find v s with
      | Some i => Ok i
      | None => Raise ValueError
      end
  | _ => Raise AttributeError
  end.

(** [obj[k]] for a string key [k]. *)
Fixpoint dict_get (kv : list (pystr * pyobj)) (k : pystr) : result pyobj :=
  match kv with
  | [] => Raise KeyError
  | (k', v) :: kv' => if bool_decide (k' = k) then Ok v else dict_get kv' k
  end.

Definition py_getitem_str (obj : pyobj) (k : pystr) : result pyobj :=
  match obj with
  | PyDict kv => dict_get kv k
  | _ => Raise TypeError
  end.

(** A column list as the object [json.load] hands back. *)
Definition schema (names : list pystr) : pyobj := PyList (PyStr <$> names).

(** ** NumPy arrays of floats *)

(** [np.zeros(n)]. *)
Definition np_zeros (n : nat) : list Q := replicate n 0%Q.

(** [x[i] = v] for a non-negative index [i]. *)
Definition np_setitem (x : list Q) (i : nat) (v : Q) : result (list Q) :=
  if decide (i < length x)%nat then Ok (<[i:=v]> x) else Raise IndexError.

(** [ys[0]]. *)
Definition np_first (ys : list Q) : result Q :=
  match ys with
  | y :: _ => Ok y
  | [] => Raise IndexError
  end.

(** [p / a] on [np.float64]: a zero divisor gives a non-finite value (and a
    warning), not an exception. *)
Definition np_true_divide (p a : Q) : float64 :=
  if Qeq_bool a 0 then
    if Qlt_le_dec 0 p then PosInf
    else if Qlt_le_dec p 0 then NegInf else NaN
  else Fin (p / a).

(** Round half to even. *)
Definition round_half_even (q : Q) : Z :=
  let f := Qfloor q in
  match Qcompare (q - inject_Z f) (1 # 2) with
  | Lt => f
  | Gt => (f + 1)%Z
  | Eq => if Z.even f then f else (f + 1)%Z
  end.

(** [round(v, 2)]. *)
Definition round2 (v : Q) : Q := round_half_even (v * 100) # 100.

(** ** The regression model *)

(** What the script uses of the unpickled model: [model.predict(X)] on a
    batch of feature vectors. *)
Record Model := { predict : list (list Q) -> result (list Q) }.

(** The statements shared by [get_price_per_sqft] (lines 53-58) and the
    prediction handler (lines 238-245): the feature vector [x]. *)
Definition feature_vector (columns : pyobj) (area bath bhk : Q)
    (location : pystr) : result (list Q) :=
  n ← py_len columns;
  let x := np_zeros n in
  x ← np_setitem x 0 area;
  x ← np_setitem x 1 bath;
  x ← np_setitem x 2 bhk;
  loc_index ← py_index columns location;
  np_setitem x loc_index 1.

(** [model.predict([x])[0]]. *)
Definition predict_first (model : Model) (x : list Q) : result Q :=
  ys ← predict model [x];
  np_first ys.

(** ** NumPy's legacy generator: [np.random.seed], [randint], [uniform]

    The global [RandomState] behind [np.random.*] is the Mersenne Twister
    MT19937; the definitions follow NumPy's [mt19937.c], [mtrand.pyx] and
    [distributions.c].  Words are [uint32_t]: the wrap-around is written out
    with [u32]. *)

Module MT19937.

Local Open Scope Z_scope.

Definition RK_STATE_LEN : nat := 624.
Definition N : nat := 624.
Definition M : nat := 397.
Definition MATRIX_A : Z := 0x9908b0df.
Definition UPPER_MASK : Z := 0x80000000.
Definition LOWER_MASK : Z := 0x7fffffff.

Definition u32 (z : Z) : Z := Z.land z 0xffffffff.

Record state := { key : list Z; pos : nat }.

(** The loop of [mt19937_seed]: [key[pos] = seed], then
    [seed = (1812433253 * (seed ^ (seed >> 30)) + pos + 1) & 0xffffffff]. *)
Fixpoint seed_loop (n pos : nat) (seed : Z) : list Z :=
  match n with
  | O => []
  | S n' =>
      seed :: seed_loop n' (S pos)
                (u32 (1812433253 * Z.lxor seed (Z.shiftr seed 30) + Z.of_nat pos + 1))
  end.

Definition mt19937_seed (seed : Z) : state :=
  {| key := seed_loop RK_STATE_LEN 0%nat (u32 seed); pos := RK_STATE_LEN |}.

(** One step of the regeneration loops of [mt19937_gen]:
    [y = (key[i] & UPPER_MASK) | (key[j] & LOWER_MASK);]
    [key[i] = key[m] ^ (y >> 1) ^ (-(y & 1) & MATRIX_A)]. *)
Definition twist (k : list Z) (i j m : nat) : list Z :=
  let y := Z.lor (Z.land (nth i k 0) UPPER_MASK) (Z.land (nth j k 0) LOWER_MASK) in
  <[i := Z.lxor (Z.lxor (nth m k 0) (Z.shiftr y 1))
                (Z.land (u32 (- Z.land y 1)) MATRIX_A)]> k.

Definition mt19937_gen (k : list Z) : list Z :=
  (let k := fold_left (fun k i => twist k i (i + 1) (i + M))
                     (seq 0 (N - M)) k in
  let k := fold_left (fun k i => twist k i (i + 1) (i + M - N))
                     (seq (N - M) (M - 1)) k in
  twist k (N - 1) 0 (M - 1))%nat.

(** [mt19937_next]: regenerate when the block is used up, then temper the
    next word. *)
Definition mt19937_next (st : state) : Z * state :=
  let st := if (pos st =? RK_STATE_LEN)%nat
            then {| key := mt19937_gen (key st); pos := 0%nat |} else st in
  let y := nth (pos st) (key st) 0 in
  let y := Z.lxor y (Z.shiftr y 11) in
  let y := Z.lxor y (Z.land (Z.shiftl y 7) 0x9d2c5680) in
  let y := Z.lxor y (Z.land (Z.shiftl y 15) 0xefc60000) in
  let y := Z.lxor y (Z.shiftr y 18) in
  (u32 y, {| key := key st; pos := S (pos st) |}).

(** [mt19937_next_double]: 53 random bits as a float in [0, 1). *)
Definition mt19937_next_double (st : state) : Q * state :=
  let '(a, st) := mt19937_next st in
  let '(b, st) := mt19937_next st in
  let a := Z.shiftr a 5 in
  let b := Z.shiftr b 6 in
  (Qmake (a * 67108864 + b) 9007199254740992, st).

(** [gen_mask]: the smallest bit mask not below [max]. *)
Definition gen_mask (max : Z) : Z :=
  let mask := max in
  let mask := Z.lor mask (Z.shiftr mask 1) in
  let mask := Z.lor mask (Z.shiftr mask 2) in
  let mask := Z.lor mask (Z.shiftr mask 4) in
  let mask := Z.lor mask (Z.shiftr mask 8) in
  let mask := Z.lor mask (Z.shiftr mask 16) in
  let mask := Z.lor mask (Z.shiftr mask 32) in
  mask.

(** [buffered_bounded_masked_uint32]:
    [while ((val = (next_uint32(state) & mask)) > rng);].  The loop has no
    bound in the source; [fuel] bounds the number of words drawn here, and
    [None] stands for a run that has not finished within it. *)
Fixpoint bounded_masked_uint32 (fuel : nat) (rng mask : Z) (st : state)
    : option (Z * state) :=
  match fuel with
  | O => None
  | S fuel' =>
      let '(w, st) := mt19937_next st in
      let val := Z.land w mask in
      if (val >? rng)%Z then bounded_masked_uint32 fuel' rng mask st
      else Some (val, st)
  end.

(** The word drawn after [n] others. *)
Fixpoint nth_word (n : nat) (st : state) : Z :=
  let '(w, st) := mt19937_next st in
  match n with
  | O => w
  | S n' => nth_word n' st
  end.

End MT19937.

(** ** The page, the generator and the script monad *)

(** What the script writes to the page, with the values it computed.  The
    HTML and the colours around them, and the parts of the page that show
    constants only (logo, header, the two fixed market cards, footer), are
    left out. *)
Inductive ui_event :=
| ShowError (msg : pystr) (e : option exn)
| ShowPrediction (predicted_price : Q) (price_per_sqft : float64)
| ShowROI (years : Z) (value : Q) (gain : float64)
| ShowAQI (aqi : Z)
| ShowNoise (noise : Z)
| ShowGreen (green : Q)
| ShowAverage (avg_price_sqft : float64)
| ShowChart (locations_data : list (pystr * float64)).

(** The state the script mutates: NumPy's global generator and the page. *)
Record world := World { generator : MT19937.state; page : list ui_event }.

(** How a piece of the script ends: normally, by an exception that is still
    propagating, by [st.stop()], or not within the fuel given to the
    generator's rejection loop. *)
Inductive outcome (A : Type) :=
| Done (a : A) (w : world)
| Raised (e : exn) (w : world)
| Halted (w : world)
| Timeout.
Arguments Done {A} a w.
Arguments Raised {A} e w.
Arguments Halted {A} w.
Arguments Timeout {A}.

Definition Script (A : Type) : Type := world -> outcome A.

#[export] Instance Script_ret : MRet Script := fun A a w => Done a w.
#[export] Instance Script_bind : MBind Script := fun A B k m w =>
  match m w with
  | Done a w' => k a w'
  | Raised e w' => Raised e w'
  | Halted w' => Halted w'
  | Timeout => Timeout
  end.

(** A computation without effects, run inside the script. *)
Definition lift {A} (r : result A) : Script A := fun w =>
  match r with
  | Ok a => Done a w
  | Raise e => Raised e w
  end.

(** [try: m  except Exception as e: h e]. *)
Definition try_except {A} (m : Script A) (h : exn -> Script A) : Script A := fun w =>
  match m w with
  | Raised e w' => h e w'
  | o => o
  end.

(** [st.markdown(...)], [st.error(...)]: one more element on the page. *)
Definition emit (ev : ui_event) : Script unit := fun w =>
  Done tt {| generator := generator w; page := page w ++ [ev] |}.

(** [st.stop()]: the run of the script ends here. *)
Definition st_stop {A} : Script A := fun w => Halted w.

(** The seeds the legacy seeding accepts: [0 .. 2**32 - 1]. *)
Definition valid_seed (seed : Z) : bool :=
  ((0 <=? seed) && (seed <=? 4294967295))%Z.

(** [np.random.seed(seed)] for an integer: the whole state is replaced. *)
Definition np_random_seed (seed : Z) : Script unit := fun w =>
  if valid_seed seed
  then Done tt {| generator := MT19937.mt19937_seed seed; page := page w |}
  else Raised ValueError w.

(** [np.random.randint(low, high)]: an integer of [low, high), by masked
    rejection on 32-bit words. *)
Definition np_random_randint (fuel : nat) (low high : Z) : Script Z := fun w =>
  if (low >=? high)%Z then Raised ValueError w
  else
    let rng := (high - 1 - low)%Z in
    if (rng =? 0)%Z then Done low w
    else
      match MT19937.bounded_masked_uint32 fuel rng (MT19937.gen_mask rng)
                                          (generator w) with
      | Some (val, st) => Done (low + val)%Z {| generator := st; page := page w |}
      | None => Timeout
      end.

(** [np.random.uniform(low, high)]: [low + (high - low) * next_double]. *)
Definition np_random_uniform (low high : Q) : Script Q := fun w =>
  let '(u, st) := MT19937.mt19937_next_double (generator w) in
  Done (low + (high - low) * u)%Q {| generator := st; page := page w |}.

(** ** The prediction handler (lines 236-335) *)

(** [sum(ord(c) for c in location)]. *)
Definition seed_of (location : pystr) : Z :=
  fold_left Z.add (map ord location) 0%Z.

Definition annual_growth_rate : Q := 0.07.

(** [(x / predicted_price - 1) * 100] on [np.float64]. *)
Definition percent_gain (value predicted_price : Q) : float64 :=
  match np_true_divide value predicted_price with
  | Fin r => Fin ((r - 1) * 100)
  | other => other
  end.

(** The ROI block (lines 262-294): the three values are computed first, then
    shown with their gains. *)
Definition roi_analysis (predicted_price : Q) : Script unit :=
  let roi_5_years := round2 (predicted_price * (1 + annual_growth_rate) ^ 5) in
  let roi_10_years := round2 (predicted_price * (1 + annual_growth_rate) ^ 10) in
  let roi_15_years := round2 (predicted_price * (1 + annual_growth_rate) ^ 15) in
  emit (ShowROI 5 roi_5_years (percent_gain roi_5_years predicted_price));;
  emit (ShowROI 10 roi_10_years (percent_gain roi_10_years predicted_price));;
  emit (ShowROI 15 roi_15_years (percent_gain roi_15_years predicted_price)).

(** The environmental block (lines 296-331). *)
Definition environmental_analysis (fuel : nat) (location : pystr) : Script unit :=
  let seed := seed_of location in
  np_random_seed seed;;
  aqi ← np_random_randint fuel 50 200;
  emit (ShowAQI aqi);;
  noise ← np_random_randint fuel 30 90;
  emit (ShowNoise noise);;
  u ← np_random_uniform 5 30;
  let green := round2 u in
  emit (ShowGreen green).

(** The colours of the three cards (lines 304, 314 and 324). *)
Definition color_good : pystr := py "#6366f1".
Definition color_moderate : pystr := py "#FFC107".
Definition color_poor : pystr := py "#F44336".

Definition aqi_color (aqi : Z) : pystr :=
  if (aqi <? 100)%Z then color_good
  else if (aqi <? 150)%Z then color_moderate else color_poor.

Definition noise_color (noise : Z) : pystr :=
  if (noise <? 50)%Z then color_good
  else if (noise <? 70)%Z then color_moderate else color_poor.

Definition green_color (green : Q) : pystr :=
  if Qlt_le_dec 20 green then color_good
  else if Qlt_le_dec 10 green then color_moderate else color_poor.

(** The legends printed under the three figures (lines 309, 319 and 329):
    "Good: 0-100 | Moderate: 101-150 | Poor: 151+",
    "Safe: 0-50 | Moderate: 51-70 | High: 71+" and
    "Excellent: >20% | Good: 10-20% | Low: <10%", each band with the colour
    of its rank. *)
Definition aqi_legend (aqi : Z) : pystr :=
  if (aqi <=? 100)%Z then color_good
  else if (aqi <=? 150)%Z then color_moderate else color_poor.

Definition noise_legend (noise : Z) : pystr :=
  if (noise <=? 50)%Z then color_good
  else if (noise <=? 70)%Z then color_moderate else color_poor.

Definition green_legend (green : Q) : pystr :=
  if Qlt_le_dec 20 green then color_good
  else if Qlt_le_dec green 10 then color_poor else color_moderate.

(** The body of the [try]. *)
Definition predict_button_body (fuel : nat) (model : Model) (columns : pyobj)
    (area bathrooms bedrooms : Q) (location : pystr) : Script unit :=
  x ← lift (feature_vector columns area bathrooms bedrooms location);
  predicted_price ← lift (predict_first model x);
  let price_per_sqft := np_true_divide predicted_price area in
  emit (ShowPrediction predicted_price price_per_sqft);;
  roi_analysis predicted_price;;
  environmental_analysis fuel location.

Definition predict_button_handler (fuel : nat) (model : Model) (columns : pyobj)
    (area bathrooms bedrooms : Q) (location : pystr) : Script unit :=
  try_except
    (predict_button_body fuel model columns area bathrooms bedrooms location)
    (fun e =>
       emit (ShowError (py "Error making prediction: ") (Some e));;
       emit (ShowError (py "Please check your input values and try again.") None)).

(** ** [get_price_per_sqft] (lines 51-63) *)

Definition get_price_per_sqft (model : Model) (columns : pyobj)
    (location : pystr) (area bhk bath : Q) : Script float64 :=
  try_except
    (x ← lift (feature_vector columns area bath bhk location);
     predicted_price ← lift (predict_first model x);
     mret (np_true_divide predicted_price area))
    (fun e =>
       emit (ShowError (py "Error calculating price per sq ft: ") (Some e));;
       mret (Fin 0)).

(** ** Start-up: [load_model] (lines 31-48) *)

(** The library code behind the calls of the script: [pickle.load] and
    [json.load] on the bytes of a file, and the Unicode tables [float(str)]
    consults for characters outside ASCII. *)
Class Runtime := {
  pickle_load : list Z -> result Model;
  json_load : list Z -> result pyobj;
  unicode_isspace : Z -> bool;
  unicode_todecimal : Z -> option Z
}.

(** The files below the parent directory of the script: the bytes of a file
    that can be opened, [None] otherwise. *)
Definition disk := pystr -> option (list Z).

(** [open(path)]. *)
Definition py_open (d : disk) (path : pystr) : result (list Z) :=
  match d path with
  | Some bytes => Ok bytes
  | None => Raise OSError
  end.

Definition model_path : pystr := py "Model/Jaipur_real_estate_model.pickle".
Definition columns_path : pystr := py "Model/columns.json".

Section Script.
Context `{Runtime}.

Definition load_model (d : disk) : result (Model * pyobj) :=
  f ← py_open d model_path;
  model ← pickle_load f;
  f ← py_open d columns_path;
  obj ← json_load f;
  columns ← py_getitem_str obj (py "data_columns");
  mret (model, columns).

(** ** The script, top to bottom *)

(** The values of the sidebar widgets and of the button for one run. *)
Record inputs := {
  area : Q;
  bathrooms : Q;
  bedrooms : Q;
  location : pystr;
  predict_button : bool
}.

(** The options of the location select box. *)
Definition locations : list pystr :=
  map py ["ajmer road"; "bapu nagar"; "brahmpuri"; "chokdi gangapol";
          "civil lines"; "dahar ka balaji"; "gandhi path west";
          "hanuman nagar"; "jawahar nagar"; "malviya nagar"; "manchwa";
          "maniyawas"; "mansarovar ext."; "parasrampuri"; "raja park";
          "shyam nagar"; "sirsi"; "sita vihar"; "tagore nagar";
          "vaishali nagar"]%string.

Definition popular_locations : list pystr :=
  map py ["malviya nagar"; "vaishali nagar"; "civil lines"; "bapu nagar";
          "mansarovar ext."]%string.

(** [loc.title()] on ASCII text: a letter that follows a letter is lowered,
    any other letter is raised. *)
Definition is_upper (c : Z) : bool := ((65 <=? c) && (c <=? 90))%Z.
Definition is_lower (c : Z) : bool := ((97 <=? c) && (c <=? 122))%Z.

Fixpoint title_from (after_letter : bool) (s : pystr) : pystr :=
  match s with
  | [] => []
  | c :: s' =>
      if is_lower c then
        (if after_letter then c else (c - 32)%Z) :: title_from true s'
      else if is_upper c then
        (if after_letter then (c + 32)%Z else c) :: title_from true s'
      else c :: title_from false s'
  end.

Definition title (s : pystr) : pystr := title_from false s.

(** [locations_data[k] = v] on an insertion-ordered dict. *)
Fixpoint dict_set {V} (d : list (pystr * V)) (k : pystr) (v : V)
    : list (pystr * V) :=
  match d with
  | [] => [(k, v)]
  | (k', v') :: d' =>
      if bool_decide (k' = k) then (k', v) :: d' else (k', v') :: dict_set d' k v
  end.

(** The [for loc in [...]] loop of the chart (lines 370-373). *)
Fixpoint popular_loop (model : Model) (columns : pyobj) (locs : list pystr)
    (locations_data : list (pystr * float64)) : Script (list (pystr * float64)) :=
  match locs with
  | [] => mret locations_data
  | loc :: locs' =>
      price_sqft ← get_price_per_sqft model columns loc 1000 2 2;
      popular_loop model columns locs' (dict_set locations_data (title loc) price_sqft)
  end.

(** The script after the start-up block (lines 207-413). *)
Definition serve (fuel : nat) (model : Model) (columns : pyobj) (inp : inputs)
    : Script unit :=
  (if predict_button inp
   then predict_button_handler fuel model columns
          (area inp) (bathrooms inp) (bedrooms inp) (location inp)
   else mret tt);;
  avg_price_sqft ← get_price_per_sqft model columns (location inp) 1000 2 2;
  emit (ShowAverage avg_price_sqft);;
  locations_data ← popular_loop model columns popular_locations [];
  emit (ShowChart locations_data).

(** One run of the script: the start-up block (lines 44-48), then the
    page. *)
Definition app (fuel : nat) (d : disk) (inp : inputs) : Script unit :=
  loaded ← try_except (lift (load_model d))
             (fun e => emit (ShowError (py "Error loading model: ") (Some e));;
                       st_stop);
  serve fuel loaded.1 loaded.2 inp.

End Script.

(** ** [float(obj)] and [format_price] (lines 65-70) *)

Section FormatPrice.
Context `{Runtime}.

Definition is_digit (c : Z) : bool := ((48 <=? c) && (c <=? 57))%Z.

(** [Py_ISSPACE]: blank, tab, line feed, vertical tab, form feed, return. *)
Definition is_space (c : Z) : bool :=
  ((c =? 32) || ((9 <=? c) && (c <=? 13)))%Z.

(** [Py_TOLOWER] on ASCII. *)
Definition to_lower (c : Z) : Z := if is_upper c then (c + 32)%Z else c.

(** [_PyUnicode_TransformDecimalAndSpaceToASCII]: characters below 127 stay,
    Unicode white space becomes a blank, a Unicode decimal digit its ASCII
    digit; at any other character the text ends with a question mark. *)
Fixpoint transform_decimal_and_space (s : pystr) : pystr :=
  match s with
  | [] => []
  | ch :: s' =>
      if (ch <? 127)%Z then ch :: transform_decimal_and_space s'
      else if unicode_isspace ch then 32%Z :: transform_decimal_and_space s'
      else match unicode_todecimal ch with
           | Some decimal => (48 + decimal)%Z :: transform_decimal_and_space s'
           | None => [63%Z]
           end
  end.

(** The underscore pass of [_Py_string_to_number_with_underscores]: an
    underscore is dropped when a digit stands on both of its sides, and is an
    error anywhere else. *)
Fixpoint strip_underscores (prev : Z) (s : pystr) : option pystr :=
  match s with
  | [] => if (prev =? 95)%Z then None else Some []
  | c :: s' =>
      if (c =? 95)%Z then
        if is_digit prev then strip_underscores c s' else None
      else if (prev =? 95)%Z && negb (is_digit c) then None
      else cons c <$> strip_underscores c s'
  end.

Fixpoint lstrip (s : pystr) : pystr :=
  match s with
  | c :: s' => if is_space c then lstrip s' else s
  | [] => []
  end.

(** Both ends stripped, as [float_from_string_inner] does. *)
Definition strip (s : pystr) : pystr := rev (lstrip (rev (lstrip s))).

(** The longest prefix of digits, and what follows it. *)
Fixpoint span_digits (s : pystr) : pystr * pystr :=
  match s with
  | c :: s' =>
      if is_digit c then
        let '(ds, rest) := span_digits s' in (c :: ds, rest)
      else ([], s)
  | [] => ([], [])
  end.

Definition digits_value (ds : pystr) : Z :=
  fold_left (fun acc c => (10 * acc + (c - 48))%Z) ds 0%Z.

(** An optional sign: whether it is a minus, and what follows. *)
Definition split_sign (s : pystr) : bool * pystr :=
  match s with
  | 45%Z :: s' => (true, s')
  | 43%Z :: s' => (false, s')
  | _ => (false, s)
  end.

(** The exponent part: [e] or [E], an optional sign and at least one digit;
    when no digit follows, nothing is consumed. *)
Definition parse_exponent (s : pystr) : Z * pystr :=
  match s with
  | c :: s' =>
      if (to_lower c =? 101)%Z then
        let '(neg, s'') := split_sign s' in
        match span_digits s'' with
        | ([], _) => (0%Z, s)
        | (ds, rest) => ((if neg then - digits_value ds else digits_value ds)%Z, rest)
        end
      else (0%Z, s)
  | [] => (0%Z, s)
  end.

(** The largest magnitude that still rounds to a finite double:
    everything from [2^1024 - 2^970] on overflows. *)
Definition overflow_threshold : Z := (2 ^ 1024 - 2 ^ 970)%Z.

Definition finite_or_inf (q : Q) : float64 :=
  if Qle_bool (inject_Z overflow_threshold) q then PosInf
  else if Qle_bool q (- inject_Z overflow_threshold) then NegInf
  else Fin q.

(** [_Py_dg_strtod]: sign, digits, point, digits, exponent; the value read
    and the rest of the text, or [None] when there is no digit. *)
Definition parse_decimal (s : pystr) : option (float64 * pystr) :=
  let '(neg, s1) := split_sign s in
  let '(ip, s2) := span_digits s1 in
  let '(fp, s3) := match s2 with
                   | 46%Z :: s2' => span_digits s2'
                   | _ => ([], s2)
                   end in
  match ip ++ fp with
  | [] => None
  | ds =>
      let '(e, rest) := parse_exponent s3 in
      let m := inject_Z (digits_value ds) in
      let q := (m * 10 ^ (e - Z.of_nat (length fp)))%Q in
      Some (finite_or_inf (if neg then - q else q)%Q, rest)
  end.

Fixpoint match_lower (t s : pystr) : option pystr :=
  match t, s with
  | [], _ => Some s
  | a :: t', b :: s' => if (to_lower b =? a)%Z then match_lower t' s' else None
  | _ :: _, [] => None
  end.

(** [_Py_parse_inf_or_nan]. *)
Definition parse_inf_or_nan (s : pystr) : option (float64 * pystr) :=
  let '(neg, s1) := split_sign s in
  match match_lower (py "inf") s1 with
  | Some s2 =>
      let rest := match match_lower (py "inity") s2 with
                  | Some s3 => s3
                  | None => s2
                  end in
      Some (if neg then NegInf else PosInf, rest)
  | None =>
      match match_lower (py "nan") s1 with
      | Some s2 => Some (NaN, s2)
      | None => None
      end
  end.

(** [PyFloat_FromString]: the whole stripped text must be one number. *)
Definition float_from_string (s : pystr) : result float64 :=
  match strip_underscores 0 (transform_decimal_and_space s) with
  | None => Raise ValueError
  | Some s =>
      let s := strip s in
      let parsed := match parse_decimal s with
                    | Some r => Some r
                    | None => parse_inf_or_nan s
                    end in
      match parsed with
      | Some (x, []) => Ok x
      | _ => Raise ValueError
      end
  end.

(** [float(obj)]. *)
Definition py_float (obj : pyobj) : result float64 :=
  match obj with
  | PyFloat f => Ok f
  | PyBool b => Ok (Fin (if b then 1 else 0))
  | PyInt z =>
      if (overflow_threshold <=? Z.abs z)%Z then Raise OverflowError
      else Ok (Fin (inject_Z z))
  | PyStr s => float_from_string s
  | PyNone | PyList _ | PyDict _ => Raise TypeError
  end.

(** The decimal digits of a natural number, as characters. *)
Fixpoint uint_codes (u : Decimal.uint) : pystr :=
  match u with
  | Decimal.Nil => []
  | Decimal.D0 u => 48%Z :: uint_codes u
  | Decimal.D1 u => 49%Z :: uint_codes u
  | Decimal.D2 u => 50%Z :: uint_codes u
  | Decimal.D3 u => 51%Z :: uint_codes u
  | Decimal.D4 u => 52%Z :: uint_codes u
  | Decimal.D5 u => 53%Z :: uint_codes u
  | Decimal.D6 u => 54%Z :: uint_codes u
  | Decimal.D7 u => 55%Z :: uint_codes u
  | Decimal.D8 u => 56%Z :: uint_codes u
  | Decimal.D9 u => 57%Z :: uint_codes u
  end.

Definition decimal (n : Z) : pystr := uint_codes (N.to_uint (Z.to_N n)).

(** The [,] option: a comma before every group of three digits, counted from
    the right; the argument holds the digits from the right. *)
Fixpoint group3 (rev_digits : pystr) : pystr :=
  match rev_digits with
  | a :: b :: c :: rest =>
      match rest with
      | [] => rev_digits
      | _ :: _ => a :: b :: c :: 44%Z :: group3 rest
      end
  | _ => rev_digits
  end.

Definition thousands (digits : pystr) : pystr := rev (group3 (rev digits)).

(** [f"{price:,.2f}"]. *)
Definition format_2f (price : float64) : pystr :=
  match price with
  | Fin q =>
      let cents := Z.abs (round_half_even (q * 100)) in
      (if Qlt_le_dec q 0 then [45%Z] else [])
        ++ thousands (decimal (cents / 100))
        ++ [46; (48 + cents mod 100 / 10); (48 + cents mod 10)]%Z
  | PosInf => py "inf"
  | NegInf => py "-inf"
  | NaN => py "nan"
  end.

(** The rupee sign, U+20B9. *)
Definition rupee : Z := 8377.

Definition format_price (price : pyobj) : result pystr :=
  match py_float price with
  | Ok price => Ok (rupee :: format_2f price)
  | Raise e =>
      if is_ValueError e || is_TypeError e then Ok (rupee :: py "0.00")
      else Raise e
  end.

End FormatPrice.

(** * Notions used in the statements *)

(** The page with one more element. *)
Definition shown (w : world) (evs : list ui_event) : world :=
  {| generator := generator w; page := page w ++ evs |}.

Definition price_error (e : exn) : ui_event :=
  ShowError (py "Error calculating price per sq ft: ") (Some e).

Definition prediction_errors (e : exn) : list ui_event :=
  [ShowError (py "Error making prediction: ") (Some e);
   ShowError (py "Please check your input values and try again.") None].

(** The page a finished piece of the script leaves. *)
Definition page_of {A} (o : outcome A) : option (list ui_event) :=
  match o with
  | Done _ w => Some (page w)
  | _ => None
  end.

(** Two runs end the same way for an observer of the page: with the same
    value or exception and the same page. *)
Definition same_output {A} (o1 o2 : outcome A) : Prop :=
  match o1, o2 with
  | Done a w, Done b w' => a = b /\ page w = page w'
  | Raised e w, Raised e' w' => e = e' /\ page w = page w'
  | Halted w, Halted w' => page w = page w'
  | Timeout, Timeout => True
  | _, _ => False
  end.

(** The sum of the location slots, [x[3:].sum()]. *)
Definition one_hot_sum (x : list Q) : Q := foldr Qplus 0%Q (drop 3 x).

(** The three draws on the generator seeded with [seed], in the order of the
    block: [randint(50, 200)], [randint(30, 90)], [uniform(5, 30)]; with the
    state they leave. *)
Definition draws (fuel : nat) (seed : Z) : option (Z * Z * Q * MT19937.state) :=
  match MT19937.bounded_masked_uint32 fuel 149 255 (MT19937.mt19937_seed seed) with
  | Some (a, s1) =>
      match MT19937.bounded_masked_uint32 fuel 59 63 s1 with
      | Some (n, s2) =>
          let '(u, s3) := MT19937.mt19937_next_double s2 in
          Some ((50 + a)%Z, (30 + n)%Z, (5 + (30 - 5) * u)%Q, s3)
      | None => None
      end
  | None => None
  end.

Definition environmental_cards (aqi noise : Z) (u : Q) : list ui_event :=
  [ShowAQI aqi; ShowNoise noise; ShowGreen (round2 u)].

(** The three figures shown for a location, when the block finishes. *)
Definition profile_of (fuel : nat) (location : pystr) : option (Z * Z * Q) :=
  if valid_seed (seed_of location) then
    match draws fuel (seed_of location) with
    | Some (aqi, noise, u, _) => Some (aqi, noise, round2 u)
    | None => None
    end
  else None.

(** The figures of the twenty locations the page offers. *)
Definition deployed_profiles : list (Z * Z * Q) :=
  [(172, 89, 1530 # 100); (177, 71, 1848 # 100); (85, 61, 842 # 100);
   (138, 31, 802 # 100); (111, 84, 1888 # 100); (75, 76, 717 # 100);
   (164, 39, 562 # 100); (164, 77, 964 # 100); (77, 72, 1400 # 100);
   (87, 50, 2491 # 100); (198, 78, 2979 # 100); (85, 61, 842 # 100);
   (106, 62, 1613 # 100); (95, 80, 1134 # 100); (84, 59, 814 # 100);
   (62, 57, 1869 # 100); (57, 66, 2578 # 100); (79, 59, 1590 # 100);
   (132, 55, 670 # 100); (107, 77, 2084 # 100)]%Z.

Definition roi_cards (predicted_price : Q) : list ui_event :=
  map (fun years : Z =>
         let value := round2 (predicted_price * (1 + annual_growth_rate) ^ years) in
         ShowROI years value (percent_gain value predicted_price))
      [5; 10; 15]%Z.

(** [projectValue] as the specification words it: for each horizon the
    price grown at the annual rate and rounded to 2 decimals, with its gain
    in percent. *)
Record ProjectedValue := {
  yearsAhead : Z;
  projectedPrice : Q;
  percentGain : float64
}.

Definition projectValue (totalPrice annualGrowthRate : Q) (horizons : list Z)
    : list ProjectedValue :=
  map (fun h =>
         let projected := round2 (totalPrice * (1 + annualGrowthRate) ^ h) in
         {| yearsAhead := h;
            projectedPrice := projected;
            percentGain := percent_gain projected totalPrice |})
      horizons.

Definition roi_card (pv : ProjectedValue) : ui_event :=
  ShowROI (yearsAhead pv) (projectedPrice pv) (percentGain pv).

(** The projected values of one million, in cents. *)
Definition million_cents : list Z := [140255173; 196715136; 275903154]%Z.

Section StartUpNotions.
Context `{Runtime}.

(** The object read from the columns file is a dict that has the key
    [data_columns], with value [v]. *)
Definition has_data_columns (obj v : pyobj) : Prop :=
  exists kv, obj = PyDict kv /\ dict_get kv (py "data_columns") = Ok v.

(** The ways the start-up can go wrong. *)
Inductive load_failure (d : disk) : Prop :=
| model_file_unreadable :
    d model_path = None -> load_failure d
| model_file_malformed bytes e :
    d model_path = Some bytes -> pickle_load bytes = Raise e -> load_failure d
| columns_file_unreadable :
    d columns_path = None -> load_failure d
| columns_file_malformed bytes e :
    d columns_path = Some bytes -> json_load bytes = Raise e -> load_failure d
| columns_key_missing bytes obj :
    d columns_path = Some bytes -> json_load bytes = Ok obj ->
    (forall v, ~ has_data_columns obj v) -> load_failure d.

End StartUpNotions.

(** Digits in groups of three, a comma between the groups, the first group
    of one to three digits. *)
Inductive grouped : pystr -> Prop :=
| grouped_first g :
    (1 <= length g <= 3)%nat -> Forall (fun c => is_digit c = true) g -> grouped g
| grouped_next l g :
    grouped l -> length g = 3%nat -> Forall (fun c => is_digit c = true) g ->
    grouped (l ++ 44%Z :: g).

Definition not_comma (c : Z) : bool := negb (c =? 44)%Z.

(** What [get_price_per_sqft(model, columns, location, 1000, 2, 2)] returns
    and what it shows, as functions of the model, the columns and the
    location. *)
Definition price_sqft (model : Model) (columns : pyobj) (location : pystr)
    : float64 :=
  match feature_vector columns 1000 2 2 location ≫= predict_first model with
  | Ok p => np_true_divide p 1000
  | Raise _ => Fin 0
  end.

Definition price_sqft_errors (model : Model) (columns : pyobj)
    (location : pystr) : list ui_event :=
  match feature_vector columns 1000 2 2 location ≫= predict_first model with
  | Ok _ => []
  | Raise e => [price_error e]
  end.

(** The bars of the chart and the errors shown while they are computed. *)
Definition chart_data (model : Model) (columns : pyobj)
    : list (pystr * float64) :=
  (fun loc => (title loc, price_sqft model columns loc)) <$> popular_locations.

Definition chart_errors (model : Model) (columns : pyobj) : list ui_event :=
  popular_locations ≫= price_sqft_errors model columns.

(** What the script shows below the prediction: the Market Statistics card
    and the chart. *)
Definition market_events (model : Model) (columns : pyobj) (location : pystr)
    : list ui_event :=
  price_sqft_errors model columns location
    ++ [ShowAverage (price_sqft model columns location)]
    ++ chart_errors model columns
    ++ [ShowChart (chart_data model columns)].

(** [d.get(k)] on an insertion-ordered dict. *)
Fixpoint dict_lookup {V} (d : list (pystr * V)) (k : pystr) : option V :=
  match d with
  | [] => None
  | (k', v) :: d' => if bool_decide (k' = k) then Some v else dict_lookup d' k
  end.

(** A code point of Unicode. *)
Definition is_code_point (c : Z) : Prop := (0 <= c <= 1114111)%Z.

(** ** Examples *)

(** The column list of the end-to-end scenario. *)
Definition scenario_names : list pystr :=
  map py ["area"; "bath"; "bhk"; "loc_a"; "loc_b"]%string.

(** A linear regression as a stand-in for the pickled model: the dot product
    with the coefficients plus the intercept, and [ValueError] for a vector of
    the wrong length. *)
Definition linear_model (coef : list Q) (intercept : Q) : Model :=
  {| predict X :=
       if forallb (fun x => (length x =? length coef)%nat) X
       then Ok (map (fun x => Qred (foldr Qplus intercept (zip_with Qmult coef x))) X)
       else Raise ValueError |}.

Definition scenario_model : Model :=
  linear_model [4500; 150000; 250000; 300000; 900000]%Q 100000%Q.

(** A world to run examples in: some state of the generator, an empty page. *)
Definition w0 : world := World (MT19937.mt19937_seed 0) [].

(** A runtime for closed examples: no file loads, and the Unicode tables know
    no digit or space outside ASCII. *)
Definition bare_runtime : Runtime :=
  {| pickle_load := fun _ => Raise UnpicklingError;
     json_load := fun _ => Raise JSONDecodeError;
     unicode_isspace := fun _ => false;
     unicode_todecimal := fun _ => None |}.

(** A location whose code points sum to more than [2**32 - 1]: 3856 times
    the last code point of Unicode. *)
Definition long_location : pystr := replicate 3856 1114111%Z.

Definition long_names : list pystr := scenario_names ++ [long_location].

Definition long_model : Model :=
  linear_model [4500; 150000; 250000; 300000; 900000; 500000]%Q 100000%Q.

(** * Properties *)

(** ** Looking up a column *)

Lemma find_index_fmap {A B} (f : A -> B) (p : B -> bool) (l : list A) :
  find_index p (f <$> l) = find_index (fun a => p (f a)) l.
Proof.
  induction l as [|a l IH]; simpl; [done|].
  destruct (p (f a)); [done|]. f_equal. exact IH.
Qed.

Lemma find_index_Some {A} (p : A -> bool) (l : list A) (i : nat) :
  find_index p l = Some i ->
  exists a, l !! i = Some a /\ p a = true /\
            forall j b, (j < i)%nat -> l !! j = Some b -> p b = false.
Proof.
  revert i. induction l as [|a l IH]; intros i; simpl; [done|].
  destruct (p a) eqn:Hpa.
  - intros [= <-]. exists a. repeat split; [done|]. intros j b Hj. lia.
  - destruct (find_index p l) as [k|] eqn:Hk; simpl; [|done].
    intros [= <-]. destruct (IH k eq_refl) as (a' & Hl & Hp & Hlt).
    exists a'. repeat split; [done..|].
    intros [|j] b Hj; simpl; [by intros [= <-]|].
    apply Hlt. lia.
Qed.

Lemma find_index_None {A} (p : A -> bool) (l : list A) :
  find_index p l = None -> Forall (fun a => p a = false) l.
Proof.
  induction l as [|a l IH]; simpl; [by constructor|].
  destruct (p a) eqn:Hpa; [done|].
  destruct (find_index p l); simpl; [done|].
  intros _. constructor; [done|]. by apply IH.
Qed.

Lemma find_index_elem (location : pystr) (names : list pystr) :
  location ∈ names ->
  exists i, find_index (fun s => bool_decide (s = location)) names = Some i.
Proof.
  intros Hin.
  destruct (find_index _ names) as [i|] eqn:Hf; [by exists i|].
  apply find_index_None in Hf. rewrite Forall_forall in Hf.
  specialize (Hf _ Hin). simpl in Hf. by rewrite bool_decide_eq_false in Hf.
Qed.

Lemma find_index_not_elem (location : pystr) (names : list pystr) :
  location ∉ names ->
  find_index (fun s => bool_decide (s = location)) names = None.
Proof.
  intros Hin.
  destruct (find_index _ names) as [i|] eqn:Hf; [|done].
  apply find_index_Some in Hf as (a & Hl & Hp & _).
  apply bool_decide_eq_true in Hp as ->.
  destruct Hin. by eapply list_elem_of_lookup_2.
Qed.

(** [columns.index(location)] on a column list. *)
Lemma py_index_schema (names : list pystr) (location : pystr) :
  py_index (schema names) location =
  match find_index (fun s => bool_decide (s = location)) names with
  | Some i => Ok i
  | None => Raise ValueError
  end.
Proof. unfold py_index, schema. cbv beta iota. by rewrite find_index_fmap. Qed.

(** ** The feature vector *)

Lemma np_setitem_lt (x : list Q) (i : nat) (v : Q) :
  (i < length x)%nat -> np_setitem x i v = Ok (<[i:=v]> x).
Proof. intros Hi. unfold np_setitem. by rewrite decide_True. Qed.

Lemma np_setitem_ge (x : list Q) (i : nat) (v : Q) :
  (length x <= i)%nat -> np_setitem x i v = Raise IndexError.
Proof. intros Hi. unfold np_setitem. rewrite decide_False; [done|lia]. Qed.

Lemma sum_one_hot (n k : nat) :
  (k < n)%nat -> (foldr Qplus 0 (<[k:=1]> (replicate n 0)) == 1)%Q.
Proof.
  revert k. induction n as [|n IH]; intros k Hk; [lia|].
  destruct k as [|k]; simpl.
  - assert (Hz : (foldr Qplus 0 (replicate n 0) == 0)%Q).
    { clear. induction n as [|n IH]; simpl; [reflexivity|]. rewrite IH. reflexivity. }
    rewrite Hz. reflexivity.
  - rewrite IH by lia. reflexivity.
Qed.

(** The vector built for a list of at least three columns and a location
    that is first found at position [3 + k]. *)
Lemma feature_vector_schema (a b c : pystr) (rest : list pystr)
    (area bath bhk : Q) (location : pystr) (k : nat) :
  a ≠ location -> b ≠ location -> c ≠ location ->
  find_index (fun s => bool_decide (s = location)) rest = Some k ->
  feature_vector (schema (a :: b :: c :: rest)) area bath bhk location
  = Ok (area :: bath :: bhk :: <[k:=1%Q]> (replicate (length rest) 0%Q)).
Proof.
  intros Ha Hb Hc Hk.
  pose proof (find_index_Some _ _ _ Hk) as (s & Hs & _).
  apply lookup_lt_Some in Hs.
  unfold feature_vector. rewrite py_index_schema. simpl.
  rewrite !bool_decide_eq_false_2 by done. rewrite Hk. simpl.
  rewrite length_fmap. unfold np_zeros. simpl.
  repeat (rewrite np_setitem_lt by (simpl; rewrite ?length_replicate; lia); simpl).
  done.
Qed.

(** C1, as stated, fails: a location that is a member of the column list but
    names one of the first three columns ("area") makes the lookup return
    position 0, so the assignment [x[loc_index] = 1] overwrites the area and
    no location slot is set. *)
Lemma feature_vector_area_column_overwritten :
  py "area" ∈ scenario_names /\
  feature_vector (schema scenario_names) 1000 2 3 (py "area")
  = Ok [1; 2; 3; 0; 0]%Q /\
  ([1; 2; 3; 0; 0]%Q : list Q) !! 0%nat <> Some 1000%Q /\
  (one_hot_sum [1; 2; 3; 0; 0] == 0)%Q.
Proof.
  split; [|split; [|split]].
  - apply (bool_decide_unpack _). by vm_compute.
  - by vm_compute.
  - discriminate.
  - by vm_compute.
Qed.

(** A column list shorter than three columns has no slot for the raw inputs:
    the assignments raise [IndexError]. *)
Lemma feature_vector_short_schema :
  feature_vector (schema [py "loc_a"; py "loc_b"]) 1000 2 3 (py "loc_b")
  = Raise IndexError.
Proof. by vm_compute. Qed.

(** C1 (amended): for every column list and every location that is a member
    of the list without being one of its first three names, the vector is
    built, has one slot per column, holds area, bathrooms and bedrooms in
    slots 0, 1 and 2, holds 1 at the position of the location and 0 in every
    other location slot, and its location slots sum to exactly 1. *)
Theorem feature_vector_layout (names : list pystr) (area bath bhk : Q)
    (location : pystr) :
  location ∈ names -> location ∉ take 3 names ->
  exists (x : list Q) (i : nat),
    feature_vector (schema names) area bath bhk location = Ok x /\
    py_index (schema names) location = Ok i /\
    names !! i = Some location /\
    length x = length names /\
    x !! 0%nat = Some area /\ x !! 1%nat = Some bath /\ x !! 2%nat = Some bhk /\
    (3 <= i)%nat /\ x !! i = Some 1%Q /\
    (forall j, (3 <= j < length names)%nat -> j <> i -> x !! j = Some 0%Q) /\
    (one_hot_sum x == 1)%Q.
Proof.
  intros Hin Hnot.
  destruct names as [|a [|b [|c rest]]]; try (by destruct Hnot).
  simpl in Hnot.
  rewrite !not_elem_of_cons in Hnot. destruct Hnot as (Ha & Hb & Hc & _).
  rewrite !elem_of_cons in Hin.
  destruct Hin as [?|[?|[?|Hrest]]]; [done..|].
  destruct (find_index_elem _ _ Hrest) as [k Hk].
  pose proof (find_index_Some _ _ _ Hk) as (s & Hs & Hp & _).
  apply bool_decide_eq_true in Hp as ->.
  pose proof (lookup_lt_Some _ _ _ Hs) as Hlt.
  exists (area :: bath :: bhk :: <[k:=1%Q]> (replicate (length rest) 0%Q)), (3 + k)%nat.
  split; [by apply feature_vector_schema|].
  split.
  { rewrite py_index_schema. simpl.
    rewrite !bool_decide_eq_false_2 by done. by rewrite Hk. }
  split; [done|].
  split; [simpl; by rewrite length_insert, length_replicate|].
  do 3 (split; [done|]).
  split; [lia|].
  split.
  { simpl. apply list_lookup_insert_eq. by rewrite length_replicate. }
  split.
  - intros j [Hj3 Hjn] Hne. simpl in Hjn.
    destruct j as [|[|[|j]]]; try lia. simpl.
    rewrite list_lookup_insert_ne by lia.
    apply lookup_replicate_2. lia.
  - unfold one_hot_sum. simpl. by apply sum_one_hot.
Qed.

(** The end-to-end scenario of the specification is an instance. *)
Lemma feature_vector_layout_scenario :
  feature_vector (schema scenario_names) 1000 2 3 (py "loc_b")
  = Ok [1000; 2; 3; 0; 1]%Q /\
  exists (x : list Q) (i : nat),
    feature_vector (schema scenario_names) 1000 2 3 (py "loc_b") = Ok x /\
    py_index (schema scenario_names) (py "loc_b") = Ok i /\
    scenario_names !! i = Some (py "loc_b") /\
    length x = length scenario_names /\
    x !! 0%nat = Some 1000%Q /\ x !! 1%nat = Some 2%Q /\ x !! 2%nat = Some 3%Q /\
    (3 <= i)%nat /\ x !! i = Some 1%Q /\
    (forall j, (3 <= j < length scenario_names)%nat -> j <> i ->
               x !! j = Some 0%Q) /\
    (one_hot_sum x == 1)%Q.
Proof.
  split; [by vm_compute|].
  apply feature_vector_layout.
  - apply (bool_decide_unpack _). by vm_compute.
  - apply (bool_decide_unpack _). by vm_compute.
Defined.

(** ** Prediction: [get_price_per_sqft] and the handler *)

Arguments py : simpl never.

Lemma np_true_divide_pos (p a : Q) : (0 < a)%Q -> np_true_divide p a = Fin (p / a).
Proof.
  intros Ha. unfold np_true_divide.
  destruct (Qeq_bool a 0) eqn:E; [|done].
  apply Qeq_bool_iff in E. rewrite E in Ha. by apply Qlt_irrefl in Ha.
Qed.

(** Equations of the script monad. *)
Lemma result_bind_Ok {A B} (a : A) (k : A -> result B) : (Ok a ≫= k) = k a.
Proof. done. Qed.

Lemma result_bind_Raise {A B} (e : exn) (k : A -> result B) :
  (Raise e ≫= k) = Raise e.
Proof. done. Qed.

Lemma bind_lift {A B} (r : result A) (k : A -> Script B) (w : world) :
  (lift r ≫= k) w = match r with Ok a => k a w | Raise e => Raised e w end.
Proof. by destruct r. Qed.

Lemma bind_emit {B} (ev : ui_event) (k : Script B) (w : world) :
  (emit ev;; k) w = k (shown w [ev]).
Proof. done. Qed.

Lemma emit_eq (ev : ui_event) (w : world) : emit ev w = Done tt (shown w [ev]).
Proof. done. Qed.

Lemma shown_shown (w : world) (evs evs' : list ui_event) :
  shown (shown w evs) evs' = shown w (evs ++ evs').
Proof. unfold shown. simpl. by rewrite app_assoc. Qed.

(** [get_price_per_sqft] by the outcome of its [try] body. *)
Lemma get_price_per_sqft_eq (model : Model) (columns : pyobj)
    (location : pystr) (area bhk bath : Q) (w : world) :
  get_price_per_sqft model columns location area bhk bath w =
  match feature_vector columns area bath bhk location ≫= predict_first model with
  | Ok p => Done (np_true_divide p area) w
  | Raise e => Done (Fin 0) (shown w [price_error e])
  end.
Proof.
  unfold get_price_per_sqft, try_except. rewrite bind_lift.
  destruct (feature_vector _ _ _ _ _) as [x|e]; [|done].
  rewrite bind_lift, result_bind_Ok.
  by destruct (predict_first model x).
Qed.

(** The handler by the outcome of building the vector and predicting. *)
Lemma predict_button_handler_eq (fuel : nat) (model : Model) (columns : pyobj)
    (area bathrooms bedrooms : Q) (location : pystr) (w : world) :
  predict_button_handler fuel model columns area bathrooms bedrooms location w =
  match feature_vector columns area bathrooms bedrooms location
        ≫= predict_first model with
  | Ok p =>
      match (roi_analysis p;; environmental_analysis fuel location)
              (shown w [ShowPrediction p (np_true_divide p area)]) with
      | Raised e w' => Done tt (shown w' (prediction_errors e))
      | o => o
      end
  | Raise e => Done tt (shown w (prediction_errors e))
  end.
Proof.
  unfold predict_button_handler, predict_button_body, try_except.
  rewrite bind_lift.
  destruct (feature_vector _ _ _ _ _) as [x|e].
  - rewrite bind_lift, result_bind_Ok.
    destruct (predict_first model x) as [p|e].
    + rewrite bind_emit.
      destruct ((roi_analysis p;; environmental_analysis fuel location) _);
        try done.
      by rewrite bind_emit, emit_eq, shown_shown.
    + by rewrite bind_emit, emit_eq, shown_shown.
  - by rewrite result_bind_Raise, bind_emit, emit_eq, shown_shown.
Qed.

(** For a location outside the column list no vector is built. *)
Lemma feature_vector_unknown_location (names : list pystr)
    (area bath bhk : Q) (location : pystr) :
  location ∉ names ->
  feature_vector (schema names) area bath bhk location
  = Raise (if decide (3 <= length names)%nat then ValueError else IndexError).
Proof.
  intros Hnot.
  destruct names as [|a [|b [|c rest]]]; try reflexivity.
  rewrite decide_True by (simpl; lia).
  unfold feature_vector. rewrite py_index_schema, find_index_not_elem by done.
  simpl. rewrite ?length_fmap. unfold np_zeros. simpl.
  by repeat (rewrite np_setitem_lt by (simpl; lia); simpl).
Qed.

(** C2, as stated, fails on [get_price_per_sqft]: for a location outside the
    column list the caller receives the zero-valued result 0, not an error;
    and on a column list with fewer than three columns the construction fails
    with [IndexError] at the first slots, before the location is looked up. *)
Lemma get_price_per_sqft_unknown_location_is_zero :
  (py "nowhere" ∉ scenario_names) /\
  get_price_per_sqft scenario_model (schema scenario_names) (py "nowhere")
                     1000 2 2 w0
  = Done (Fin 0) (shown w0 [price_error ValueError]) /\
  (py "nowhere" ∉ [py "loc_a"; py "loc_b"]) /\
  feature_vector (schema [py "loc_a"; py "loc_b"]) 1000 2 2 (py "nowhere")
  = Raise IndexError.
Proof.
  split; [|split; [|split]].
  - apply (bool_decide_unpack _). by vm_compute.
  - by vm_compute.
  - apply (bool_decide_unpack _). by vm_compute.
  - by vm_compute.
Qed.

(** C2 (amended): for every location that is not in the column list the
    construction of the feature vector raises and yields no vector, whatever
    the model: [ValueError] from [columns.index] when the list has at least
    three columns, [IndexError] from the slot assignments otherwise.  The
    prediction handler reports the error on the page and shows no prediction;
    [get_price_per_sqft] reports it and returns 0. *)
Theorem unknown_location_rejected (names : list pystr) (area bath bhk : Q)
    (location : pystr) (fuel : nat) (model : Model) (w : world) :
  location ∉ names ->
  exists e : exn,
    feature_vector (schema names) area bath bhk location = Raise e /\
    ((3 <= length names)%nat -> e = ValueError) /\
    ((length names < 3)%nat -> e = IndexError) /\
    predict_button_handler fuel model (schema names) area bath bhk location w
    = Done tt (shown w (prediction_errors e)) /\
    get_price_per_sqft model (schema names) location area bhk bath w
    = Done (Fin 0) (shown w [price_error e]).
Proof.
  intros Hnot.
  pose proof (feature_vector_unknown_location names area bath bhk location Hnot)
    as Hfv.
  eexists. split; [exact Hfv|].
  split; [intros; by rewrite decide_True|].
  split; [intros; rewrite decide_False; [done|lia]|].
  split.
  - by rewrite predict_button_handler_eq, Hfv.
  - by rewrite get_price_per_sqft_eq, Hfv.
Qed.

Lemma unknown_location_rejected_scenario :
  (py "nowhere" ∉ scenario_names) /\
  exists e : exn,
    feature_vector (schema scenario_names) 1000 2 3 (py "nowhere") = Raise e /\
    ((3 <= length scenario_names)%nat -> e = ValueError) /\
    ((length scenario_names < 3)%nat -> e = IndexError) /\
    predict_button_handler 8 scenario_model (schema scenario_names)
                           1000 2 3 (py "nowhere") w0
    = Done tt (shown w0 (prediction_errors e)) /\
    get_price_per_sqft scenario_model (schema scenario_names) (py "nowhere")
                       1000 3 2 w0
    = Done (Fin 0) (shown w0 [price_error e]).
Proof.
  assert (Hnot : py "nowhere" ∉ scenario_names).
  { apply (bool_decide_unpack _). by vm_compute. }
  split; [exact Hnot|].
  exact (unknown_location_rejected scenario_names 1000 2 3 (py "nowhere") 8
           scenario_model w0 Hnot).
Defined.

(** C9: [get_price_per_sqft] always returns to its caller.  When building the
    vector or the prediction raises, it reports the exception on the page and
    returns exactly 0; otherwise it returns the prediction divided by the
    area and leaves the page and the generator as they were. *)
Theorem get_price_per_sqft_never_raises (model : Model) (columns : pyobj)
    (location : pystr) (area bhk bath : Q) (w : world) :
  (exists v w', get_price_per_sqft model columns location area bhk bath w
                = Done v w') /\
  (forall e,
     (feature_vector columns area bath bhk location = Raise e \/
      exists x, feature_vector columns area bath bhk location = Ok x /\
                predict_first model x = Raise e) ->
     get_price_per_sqft model columns location area bhk bath w
     = Done (Fin 0) (shown w [price_error e])) /\
  (forall x p,
     feature_vector columns area bath bhk location = Ok x ->
     predict_first model x = Ok p ->
     get_price_per_sqft model columns location area bhk bath w
     = Done (np_true_divide p area) w).
Proof.
  rewrite get_price_per_sqft_eq.
  split; [|split].
  - destruct (_ ≫= _); eauto.
  - intros e [Hfv|(x & Hfv & Hp)]; rewrite Hfv; [done|].
    by rewrite result_bind_Ok, Hp.
  - intros x p Hfv Hp. by rewrite Hfv, result_bind_Ok, Hp.
Qed.

(** C7: for a positive area, once the vector is built and the model has
    predicted [p] on it, the price per square foot is [p / area], both in
    [get_price_per_sqft] and in what the handler shows. *)
Theorem price_per_area (fuel : nat) (model : Model) (columns : pyobj)
    (area bath bhk : Q) (location : pystr) (x : list Q) (p : Q) (w : world) :
  (0 < area)%Q ->
  feature_vector columns area bath bhk location = Ok x ->
  predict_first model x = Ok p ->
  get_price_per_sqft model columns location area bhk bath w
  = Done (Fin (p / area)) w /\
  predict_button_body fuel model columns area bath bhk location w
  = (roi_analysis p;; environmental_analysis fuel location)
      (shown w [ShowPrediction p (Fin (p / area))]).
Proof.
  intros Harea Hfv Hp. split.
  - by rewrite get_price_per_sqft_eq, Hfv, result_bind_Ok, Hp, np_true_divide_pos.
  - unfold predict_button_body.
    rewrite bind_lift, Hfv, bind_lift, Hp, bind_emit.
    by rewrite np_true_divide_pos.
Qed.

Lemma price_per_area_scenario :
  (0 < 1000)%Q /\
  feature_vector (schema scenario_names) 1000 2 3 (py "loc_b")
  = Ok [1000; 2; 3; 0; 1]%Q /\
  predict_first scenario_model [1000; 2; 3; 0; 1]%Q = Ok 6550000%Q /\
  get_price_per_sqft scenario_model (schema scenario_names) (py "loc_b")
                     1000 3 2 w0
  = Done (Fin (6550000 / 1000)) w0 /\
  predict_button_body 8 scenario_model (schema scenario_names)
                      1000 2 3 (py "loc_b") w0
  = (roi_analysis 6550000;; environmental_analysis 8 (py "loc_b"))
      (shown w0 [ShowPrediction 6550000 (Fin (6550000 / 1000))]).
Proof.
  assert (H1 : (0 < 1000)%Q) by reflexivity.
  assert (H2 : feature_vector (schema scenario_names) 1000 2 3 (py "loc_b")
               = Ok [1000; 2; 3; 0; 1]%Q) by (by vm_compute).
  assert (H3 : predict_first scenario_model [1000; 2; 3; 0; 1]%Q = Ok 6550000%Q)
    by (by vm_compute).
  split; [exact H1|]. split; [exact H2|]. split; [exact H3|].
  exact (price_per_area 8 scenario_model (schema scenario_names) 1000 2 3
           (py "loc_b") _ _ w0 H1 H2 H3).
Defined.

(** ** The generator *)

Module MT19937_facts.
Import MT19937.
Local Open Scope Z_scope.

Arguments mt19937_next : simpl never.
Arguments mt19937_seed : simpl never.
Arguments mt19937_next_double : simpl never.

Lemma u32_range (z : Z) : 0 <= u32 z < 4294967296.
Proof.
  unfold u32. change 0xffffffff with (Z.ones 32).
  rewrite Z.land_ones by lia. apply Z.mod_pos_bound. lia.
Qed.

(** Every word the generator returns is a 32-bit word. *)
Lemma mt19937_next_range (st : state) : 0 <= (mt19937_next st).1 < 4294967296.
Proof. unfold mt19937_next. simpl. apply u32_range. Qed.

Lemma shiftr_range (w k n : Z) :
  0 <= k -> 0 <= w < 2 ^ (n + k) -> 0 <= n -> 0 <= Z.shiftr w k < 2 ^ n.
Proof.
  intros Hk [Hw0 Hw] Hn. rewrite Z.shiftr_div_pow2 by lia. split.
  - apply Z.div_pos; lia.
  - apply Z.div_lt_upper_bound; [lia|]. rewrite <- Z.pow_add_r by lia.
    by rewrite (Z.add_comm k n).
Qed.

(** [mt19937_next_double] lies in [0, 1). *)
Lemma mt19937_next_double_range (st : state) :
  (0 <= (mt19937_next_double st).1 < 1)%Q.
Proof.
  unfold mt19937_next_double.
  pose proof (mt19937_next_range st) as Ha.
  destruct (mt19937_next st) as [a st1]. simpl in Ha.
  pose proof (mt19937_next_range st1) as Hb.
  destruct (mt19937_next st1) as [b st2]. simpl in Hb. simpl.
  pose proof (shiftr_range a 5 27 ltac:(lia) ltac:(simpl; lia) ltac:(lia)) as Ha'.
  pose proof (shiftr_range b 6 26 ltac:(lia) ltac:(simpl; lia) ltac:(lia)) as Hb'.
  change (2 ^ 27) with 134217728 in Ha'. change (2 ^ 26) with 67108864 in Hb'.
  unfold Qle, Qlt. simpl. lia.
Qed.

(** What the rejection loop returns is a masked word within the range. *)
Lemma bounded_masked_uint32_range (fuel : nat) (rng mask : Z) (st st' : state)
    (val : Z) :
  bounded_masked_uint32 fuel rng mask st = Some (val, st') -> 0 <= val <= rng.
Proof.
  revert st. induction fuel as [|fuel IH]; intros st;
    cbn [bounded_masked_uint32]; [done|].
  pose proof (mt19937_next_range st) as Hw.
  destruct (mt19937_next st) as [w st1]. simpl in Hw.
  destruct (Z.land w mask >? rng) eqn:E.
  - apply IH.
  - intros [= <- <-]. split.
    + apply Z.land_nonneg. lia.
    + rewrite Z.gtb_ltb in E. apply Z.ltb_ge in E. lia.
Qed.

(** More fuel does not change a finished loop. *)
Lemma bounded_masked_uint32_mono (fuel fuel' : nat) (rng mask : Z)
    (st : state) (r : Z * state) :
  (fuel <= fuel')%nat ->
  bounded_masked_uint32 fuel rng mask st = Some r ->
  bounded_masked_uint32 fuel' rng mask st = Some r.
Proof.
  revert fuel' st. induction fuel as [|fuel IH]; intros fuel' st Hle; [done|].
  destruct fuel' as [|fuel']; [lia|]. cbn [bounded_masked_uint32].
  destruct (mt19937_next st) as [w st1].
  destruct (Z.land w mask >? rng); [|done].
  apply IH. lia.
Qed.

(** The model against reference values: the 10000th word of the generator
    seeded with 5489 (the check value of the MT19937 reference), and what
    NumPy prints after [np.random.seed(42)] for [np.random.randint(0, 100)]
    (51) and after [np.random.seed(0)] for [np.random.rand()]
    (0.5488135039273248). *)
Example mt19937_reference_word :
  nth_word (Z.to_nat 9999) (mt19937_seed 5489) = 4123659995.
Proof. by vm_compute. Qed.

Example randint_seed_42 :
  fst <$> bounded_masked_uint32 8 99 (gen_mask 99) (mt19937_seed 42) = Some 51.
Proof. by vm_compute. Qed.

Example rand_seed_0 :
  (mt19937_next_double (mt19937_seed 0)).1
  = (4943272583565992 # 9007199254740992)%Q.
Proof. by vm_compute. Qed.

End MT19937_facts.

(** ** Rounding *)

Lemma round_half_even_bounds (q : Q) :
  (Qfloor q <= round_half_even q <= Qfloor q + 1)%Z.
Proof.
  unfold round_half_even.
  destruct (Qcompare _ _); [destruct (Z.even _)|..]; lia.
Qed.

Lemma inject_Z_pred (n : Z) : (inject_Z (n - 1) == inject_Z n - 1)%Q.
Proof. unfold Z.sub. rewrite inject_Z_plus. reflexivity. Qed.

Lemma inject_Z_succ (n : Z) : (inject_Z (n + 1) == inject_Z n + 1)%Q.
Proof. rewrite inject_Z_plus. reflexivity. Qed.

(** A value strictly within one half of an integer rounds to it. *)
Lemma round_half_even_unique (q : Q) (n : Z) :
  (inject_Z n - (1 # 2) < q)%Q -> (q < inject_Z n + (1 # 2))%Q ->
  round_half_even q = n.
Proof.
  intros Hlo Hhi.
  pose proof (Qfloor_le q) as Hf1. pose proof (Qlt_floor q) as Hf2.
  rewrite inject_Z_succ in Hf2.
  assert (Hcase : Qfloor q = n \/ Qfloor q = (n - 1)%Z).
  { assert (H1 : (inject_Z (Qfloor q) < inject_Z (n + 1))%Q)
      by (rewrite inject_Z_succ; lra).
    assert (H2 : (inject_Z (n - 1) < inject_Z (Qfloor q + 1))%Q)
      by (rewrite inject_Z_pred, inject_Z_succ; lra).
    rewrite <- Zlt_Qlt in H1, H2. lia. }
  unfold round_half_even.
  destruct Hcase as [E|E]; rewrite E.
  - assert (Hc : (q - inject_Z n ?= 1 # 2)%Q = Lt)
      by (rewrite <- Qlt_alt; lra).
    by rewrite Hc.
  - assert (Hc : (q - inject_Z (n - 1) ?= 1 # 2)%Q = Gt)
      by (rewrite <- Qgt_alt, inject_Z_pred; lra).
    rewrite Hc. lia.
Qed.

(** [round(v, 2)] keeps a value of [lo, hi] within [lo, hi] when both ends
    are whole numbers of cents. *)
Lemma round2_bounds (v : Q) (lo hi : Z) :
  (inject_Z lo <= v * 100)%Q -> (v * 100 <= inject_Z hi)%Q ->
  (lo # 100 <= round2 v)%Q /\ (round2 v <= hi # 100)%Q.
Proof.
  intros Hlo Hhi. unfold round2.
  pose proof (round_half_even_bounds (v * 100)) as [Hb1 Hb2].
  assert (H1 : (lo <= Qfloor (v * 100))%Z).
  { rewrite <- (Qfloor_Z lo). by apply Qfloor_resp_le. }
  assert (H2 : (round_half_even (v * 100) <= hi)%Z).
  { destruct (Z_le_gt_dec (Qfloor (v * 100) + 1) hi) as [|Hgt]; [lia|].
    assert (Hint : (v * 100 == inject_Z hi)%Q).
    { pose proof (Qfloor_le (v * 100)) as Hf.
      assert (Hh : (hi <= Qfloor (v * 100))%Z) by lia.
      rewrite Zle_Qle in Hh. lra. }
    assert (Hr : round_half_even (v * 100) = hi).
    { apply round_half_even_unique; lra. }
    lia. }
  unfold Qle. simpl. lia.
Qed.

(** ** The environmental block *)

Import MT19937 MT19937_facts.

Lemma bind_eq {A B} (m : Script A) (k : A -> Script B) (w : world) :
  (m ≫= k) w =
  match m w with
  | Done a w' => k a w'
  | Raised e w' => Raised e w'
  | Halted w' => Halted w'
  | Timeout => Timeout
  end.
Proof. done. Qed.

Lemma np_random_seed_eq (seed : Z) (w : world) :
  np_random_seed seed w =
  if valid_seed seed then Done tt (World (mt19937_seed seed) (page w))
  else Raised ValueError w.
Proof. done. Qed.

Lemma np_random_randint_50_200 (fuel : nat) (w : world) :
  np_random_randint fuel 50 200 w =
  match bounded_masked_uint32 fuel 149 255 (generator w) with
  | Some (val, st) => Done (50 + val)%Z (World st (page w))
  | None => Timeout
  end.
Proof. done. Qed.

Lemma np_random_randint_30_90 (fuel : nat) (w : world) :
  np_random_randint fuel 30 90 w =
  match bounded_masked_uint32 fuel 59 63 (generator w) with
  | Some (val, st) => Done (30 + val)%Z (World st (page w))
  | None => Timeout
  end.
Proof. done. Qed.

(** The block by its draws: what it does to the page and to the generator
    depends on the location through [seed_of] only, and not at all on the
    state the generator was in. *)
Lemma environmental_analysis_eq (fuel : nat) (location : pystr) (w : world) :
  environmental_analysis fuel location w =
  if valid_seed (seed_of location) then
    match draws fuel (seed_of location) with
    | Some (aqi, noise, u, st) =>
        Done tt (World st (page w ++ environmental_cards aqi noise u))
    | None => Timeout
    end
  else Raised ValueError w.
Proof.
  unfold environmental_analysis, draws.
  rewrite bind_eq, np_random_seed_eq.
  destruct (valid_seed (seed_of location)); [|done].
  rewrite bind_eq, np_random_randint_50_200. cbn [generator page].
  destruct (bounded_masked_uint32 fuel 149 255 _) as [[a s1]|]; [|done].
  rewrite bind_emit, bind_eq, np_random_randint_30_90. cbn [shown generator page].
  destruct (bounded_masked_uint32 fuel 59 63 s1) as [[n s2]|]; [|done].
  rewrite bind_emit, bind_eq. unfold np_random_uniform. cbn [shown generator page].
  destruct (mt19937_next_double s2) as [u s3].
  rewrite emit_eq. unfold shown, environmental_cards. cbn [generator page].
  by rewrite <- !app_assoc.
Qed.

(** A location whose code points sum to more than [2**32 - 1] is refused by
    [np.random.seed]; nothing is drawn or shown. *)
Lemma environmental_analysis_seed_too_large (fuel : nat) (location : pystr)
    (w : world) :
  (4294967295 < seed_of location)%Z ->
  environmental_analysis fuel location w = Raised ValueError w.
Proof.
  intros Hs. rewrite environmental_analysis_eq. unfold valid_seed.
  destruct (seed_of location <=? 4294967295)%Z eqn:E.
  - apply Z.leb_le in E. lia.
  - by rewrite andb_false_r.
Qed.

(** What the draws can be. *)
Lemma draws_range (fuel : nat) (seed aqi noise : Z) (u : Q) (st : state) :
  draws fuel seed = Some (aqi, noise, u, st) ->
  (50 <= aqi < 200)%Z /\ (30 <= noise < 90)%Z /\ (5 <= u)%Q /\ (u < 30)%Q.
Proof.
  unfold draws.
  destruct (bounded_masked_uint32 fuel 149 255 _) as [[a s1]|] eqn:Ha; [|done].
  destruct (bounded_masked_uint32 fuel 59 63 s1) as [[n s2]|] eqn:Hn; [|done].
  pose proof (mt19937_next_double_range s2) as Hu.
  destruct (mt19937_next_double s2) as [v s3]. simpl in Hu.
  intros [= <- <- <- <-].
  apply bounded_masked_uint32_range in Ha, Hn.
  repeat split; try lia; lra.
Qed.




Lemma profile_of_shown (fuel : nat) (location : pystr) (aqi noise : Z)
    (green : Q) (w : world) :
  profile_of fuel location = Some (aqi, noise, green) ->
  page_of (environmental_analysis fuel location w)
  = Some (page w ++ [ShowAQI aqi; ShowNoise noise; ShowGreen green]).
Proof.
  unfold profile_of. rewrite environmental_analysis_eq.
  destruct (valid_seed (seed_of location)); [|done].
  destruct (draws fuel (seed_of location)) as [[[[a n] u] st]|]; [|done].
  by intros [= <- <- <-].
Qed.

Lemma profile_of_locations :
  profile_of 8 <$> locations = Some <$> deployed_profiles.
Proof. by vm_compute. Qed.

(** For each of the twenty locations of the select box the block finishes
    (eight words per draw are enough) and every figure lies in the range the
    specification gives, the green figure strictly below 30. *)
Lemma environmental_analysis_deployed (location : pystr) (w : world) :
  location ∈ locations ->
  exists (aqi noise : Z) (green : Q),
    page_of (environmental_analysis 8 location w)
    = Some (page w ++ [ShowAQI aqi; ShowNoise noise; ShowGreen green]) /\
    (50 <= aqi < 200)%Z /\ (30 <= noise < 90)%Z /\
    (5 <= green)%Q /\ (green < 30)%Q.
Proof.
  intros Hin.
  apply list_elem_of_lookup in Hin as [i Hi].
  pose proof (f_equal (fun l => l !! i) profile_of_locations) as Hp.
  cbv beta in Hp. rewrite !list_lookup_fmap, Hi in Hp. cbn [fmap option_fmap option_map] in Hp.
  destruct (deployed_profiles !! i) as [[[aqi noise] green]|] eqn:Hd; [|done].
  injection Hp as Hp.
  exists aqi, noise, green. split; [by apply profile_of_shown|].
  assert (Hall : Forall (fun '(aqi, noise, green) =>
                           (50 <= aqi < 200)%Z /\ (30 <= noise < 90)%Z /\
                           (5 <= green)%Q /\ (green < 30)%Q) deployed_profiles).
  { unfold deployed_profiles.
    repeat (constructor; [repeat split; (lia || by vm_compute || (intros ?; discriminate))|]).
    constructor. }
  rewrite Forall_lookup in Hall. exact (Hall i _ Hd).
Qed.

(** ** Two runs *)

Lemma roi_analysis_eq (predicted_price : Q) (w : world) :
  roi_analysis predicted_price w = Done tt (shown w (roi_cards predicted_price)).
Proof.
  unfold roi_analysis. rewrite !bind_emit, emit_eq, !shown_shown. done.
Qed.

Lemma environmental_analysis_same_output (fuel : nat) (location : pystr)
    (g1 g2 : state) (pg : list ui_event) :
  same_output (environmental_analysis fuel location (World g1 pg))
              (environmental_analysis fuel location (World g2 pg)).
Proof.
  rewrite !environmental_analysis_eq.
  destruct (valid_seed (seed_of location)); [|done].
  by destruct (draws fuel (seed_of location)) as [[[[aqi noise] u] st]|].
Qed.

(** C5: the handler, [get_price_per_sqft] and the environmental block are
    deterministic and independent of the state NumPy's global generator was
    left in: from the same model, columns, inputs and page, two runs started
    with any two generator states show the same page and end the same way;
    two finished runs of the environmental block even leave identical worlds
    (the same figures and the same generator state). *)
Theorem two_runs_identical (fuel : nat) (model : Model) (columns : pyobj)
    (area bathrooms bedrooms : Q) (location : pystr)
    (g1 g2 : state) (pg : list ui_event) :
  same_output
    (predict_button_handler fuel model columns area bathrooms bedrooms location
                            (World g1 pg))
    (predict_button_handler fuel model columns area bathrooms bedrooms location
                            (World g2 pg)) /\
  same_output
    (get_price_per_sqft model columns location area bedrooms bathrooms (World g1 pg))
    (get_price_per_sqft model columns location area bedrooms bathrooms (World g2 pg)) /\
  same_output (environmental_analysis fuel location (World g1 pg))
              (environmental_analysis fuel location (World g2 pg)) /\
  (forall w1 w2,
     environmental_analysis fuel location (World g1 pg) = Done tt w1 ->
     environmental_analysis fuel location (World g2 pg) = Done tt w2 ->
     w1 = w2).
Proof.
  split; [|split; [|split]].
  - rewrite !predict_button_handler_eq.
    destruct (_ ≫= _) as [p|e]; [|done].
    rewrite !bind_eq, !roi_analysis_eq. unfold shown. cbn [generator page].
    pose proof (environmental_analysis_same_output fuel location g1 g2
                  ((pg ++ [ShowPrediction p (np_true_divide p area)])
                     ++ roi_cards p)) as Hs.
    destruct (environmental_analysis fuel location (World g1 _)),
             (environmental_analysis fuel location (World g2 _));
      simpl in Hs |- *; try done.
    destruct Hs as [-> ->]. done.
  - rewrite !get_price_per_sqft_eq. by destruct (_ ≫= _).
  - apply environmental_analysis_same_output.
  - intros w1 w2. rewrite !environmental_analysis_eq.
    destruct (valid_seed (seed_of location)); [|done].
    destruct (draws fuel (seed_of location)) as [[[[aqi noise] u] st]|]; [|done].
    cbn [page]. by intros [= <-] [= <-].
Qed.

(** The example of the specification: "civil lines" shows the same three
    figures on every run. *)
Lemma civil_lines_profile (w : world) :
  page_of (environmental_analysis 8 (py "civil lines") w)
  = Some (page w ++ [ShowAQI 111; ShowNoise 84; ShowGreen (1888 # 100)]).
Proof. apply profile_of_shown. by vm_compute. Qed.

(** ** The seed *)

Lemma fold_left_add (l : list Z) (a : Z) :
  fold_left Z.add l a = (a + fold_left Z.add l 0)%Z.
Proof.
  revert a. induction l as [|c l IH]; intros a; cbn [fold_left]; [lia|].
  rewrite (IH (a + c)%Z), (IH (0 + c)%Z). lia.
Qed.

Lemma seed_of_cons (c : Z) (location : pystr) :
  seed_of (c :: location) = (c + seed_of location)%Z.
Proof. unfold seed_of. simpl. by rewrite fold_left_add. Qed.

(** Rearranging the characters of a location keeps its seed. *)
Lemma seed_of_Permutation (l1 l2 : pystr) : l1 ≡ₚ l2 -> seed_of l1 = seed_of l2.
Proof.
  induction 1 as [|c l l' _ IH|c d l|l l' l'' _ IH1 _ IH2].
  - done.
  - by rewrite !seed_of_cons, IH.
  - rewrite !seed_of_cons. lia.
  - by rewrite IH1.
Qed.

(** C10: the environmental block depends on the location only through the
    sum of its code points: two locations with equal sums give the same
    outcome from any world (the same figures on the page, the same state of
    the generator). *)
Theorem same_seed_same_profile (fuel : nat) (l1 l2 : pystr) (w : world) :
  seed_of l1 = seed_of l2 ->
  environmental_analysis fuel l1 w = environmental_analysis fuel l2 w.
Proof. intros Hs. by rewrite !environmental_analysis_eq, Hs. Qed.

(** Two locations of the select box share a seed, and so their figures. *)
Lemma same_seed_brahmpuri_maniyawas :
  seed_of (py "brahmpuri") = seed_of (py "maniyawas") /\
  environmental_analysis 8 (py "brahmpuri") w0
  = environmental_analysis 8 (py "maniyawas") w0.
Proof.
  assert (Hs : seed_of (py "brahmpuri") = seed_of (py "maniyawas"))
    by (by vm_compute).
  split; [exact Hs|].
  exact (same_seed_same_profile 8 (py "brahmpuri") (py "maniyawas") w0 Hs).
Defined.

(** In particular a location and any rearrangement of its characters. *)
Corollary permuted_location_same_profile (fuel : nat) (l1 l2 : pystr)
    (w : world) :
  l1 ≡ₚ l2 ->
  environmental_analysis fuel l1 w = environmental_analysis fuel l2 w.
Proof.
  intros Hp. by rewrite !environmental_analysis_eq, (seed_of_Permutation l1 l2).
Qed.

(** ** The ROI projection *)

Lemma percent_gain_nonzero (value predicted_price : Q) :
  ~ (predicted_price == 0)%Q ->
  percent_gain value predicted_price
  = Fin ((value / predicted_price - 1) * 100).
Proof.
  intros Hp. unfold percent_gain, np_true_divide.
  destruct (Qeq_bool predicted_price 0) eqn:E; [|done].
  by apply Qeq_bool_iff in E.
Qed.

(** Rounding to 2 decimals moves a value by at most half a cent. *)
Lemma round2_error (v : Q) : (Qabs (round2 v - v) <= 1 # 200)%Q.
Proof.
  unfold round2, round_half_even.
  pose proof (Qfloor_le (v * 100)) as Hf1.
  pose proof (Qlt_floor (v * 100)) as Hf2. rewrite inject_Z_succ in Hf2.
  set (f := Qfloor (v * 100)) in *.
  assert (Hq : forall z : Z, (z # 100 == inject_Z z * (1 # 100))%Q).
  { intros z. unfold Qeq. simpl. lia. }
  apply Qabs_Qle_condition.
  destruct (Qcompare (v * 100 - inject_Z f) (1 # 2)) eqn:E.
  - apply Qeq_alt in E. destruct (Z.even f); rewrite Hq, ?inject_Z_succ;
      split; lra.
  - apply Qlt_alt in E. rewrite Hq. split; lra.
  - apply Qgt_alt in E. rewrite Hq, inject_Z_succ. split; lra.
Qed.


(** ** Start-up *)

Section StartUp.
Context `{Runtime}.

Lemma py_getitem_str_Ok (obj v : pyobj) :
  py_getitem_str obj (py "data_columns") = Ok v <-> has_data_columns obj v.
Proof.
  unfold has_data_columns. split.
  - destruct obj; try done. simpl. eauto.
  - by intros (kv & -> & Hkv).
Qed.

Lemma load_model_Ok (d : disk) (model : Model) (columns : pyobj) :
  load_model d = Ok (model, columns) <->
  exists mb cb obj,
    d model_path = Some mb /\ pickle_load mb = Ok model /\
    d columns_path = Some cb /\ json_load cb = Ok obj /\
    has_data_columns obj columns.
Proof.
  unfold load_model, py_open. split.
  - destruct (d model_path) as [mb|]; [|done]. rewrite result_bind_Ok.
    destruct (pickle_load mb) as [m|] eqn:Hm; [|done]. rewrite result_bind_Ok.
    destruct (d columns_path) as [cb|]; [|done]. rewrite result_bind_Ok.
    destruct (json_load cb) as [obj|] eqn:Hj; [|done]. rewrite result_bind_Ok.
    destruct (py_getitem_str obj _) as [c|] eqn:Hc; [|done].
    rewrite result_bind_Ok. intros [= <- <-].
    exists mb, cb, obj. by rewrite <- py_getitem_str_Ok.
  - intros (mb & cb & obj & -> & Hm & -> & Hj & Hc).
    apply py_getitem_str_Ok in Hc.
    by rewrite result_bind_Ok, Hm, !result_bind_Ok, Hj, result_bind_Ok, Hc.
Qed.

Lemma load_model_Raise (d : disk) :
  (exists e, load_model d = Raise e) <-> load_failure d.
Proof.
  split.
  - intros [e He]. unfold load_model, py_open in He.
    destruct (d model_path) as [mb|] eqn:Hmb;
      [|by apply model_file_unreadable].
    rewrite result_bind_Ok in He.
    destruct (pickle_load mb) as [m|e'] eqn:Hm;
      [|by eapply model_file_malformed].
    rewrite result_bind_Ok in He.
    destruct (d columns_path) as [cb|] eqn:Hcb;
      [|by apply columns_file_unreadable].
    rewrite result_bind_Ok in He.
    destruct (json_load cb) as [obj|e'] eqn:Hj;
      [|by eapply columns_file_malformed].
    rewrite result_bind_Ok in He.
    destruct (py_getitem_str obj _) as [c|e'] eqn:Hc; [done|].
    eapply columns_key_missing; [done..|].
    intros v Hv. apply py_getitem_str_Ok in Hv. congruence.
  - intros Hfail.
    destruct (load_model d) as [[m c]|e] eqn:Hl; [|by exists e].
    apply load_model_Ok in Hl as (mb & cb & obj & Hmb & Hm & Hcb & Hj & Hc).
    destruct Hfail as [?|? ? ? ?|?|? ? ? ?|? ? ? ? Hno]; try congruence.
    destruct (Hno c). congruence.
Qed.


End StartUp.

(** ** Formatting *)

Lemma uint_codes_digits (u : Decimal.uint) :
  Forall (fun c => is_digit c = true) (uint_codes u).
Proof. induction u; simpl; constructor; done. Qed.

Lemma digits_value_acc (u : Decimal.uint) (acc : positive) :
  fold_left (fun a c => (10 * a + (c - 48))%Z) (uint_codes u) (Z.pos acc)
  = Z.pos (Pos.of_uint_acc u acc).
Proof.
  revert acc. induction u; intros acc; simpl; [done|..];
    rewrite <- IHu; f_equal; lia.
Qed.

Lemma digits_value_uint (u : Decimal.uint) :
  digits_value (uint_codes u) = Z.of_N (Pos.of_uint u).
Proof.
  unfold digits_value. induction u; simpl; [done|exact IHu|..];
    apply (digits_value_acc u).
Qed.

(** The digits printed for a natural number read back as the number. *)
Lemma digits_value_decimal (n : Z) : (0 <= n)%Z -> digits_value (decimal n) = n.
Proof.
  intros Hn. unfold decimal. rewrite digits_value_uint.
  change (Pos.of_uint ?u) with (N.of_uint u).
  rewrite DecimalN.Unsigned.of_to. lia.
Qed.

Lemma decimal_nonempty (n : Z) : decimal n <> [].
Proof.
  unfold decimal. destruct (Z.to_N n) as [|p]; simpl; [done|].
  pose proof (DecimalPos.Unsigned.to_uint_nonnil p) as Hp.
  by destruct (Pos.to_uint p).
Qed.

Lemma digits_value_app (ds es : pystr) :
  digits_value (ds ++ es)
  = fold_left (fun a c => (10 * a + (c - 48))%Z) es (digits_value ds).
Proof. unfold digits_value. by rewrite fold_left_app. Qed.

Lemma digit_not_comma (l : pystr) :
  Forall (fun c => is_digit c = true) l -> List.filter not_comma l = l.
Proof.
  induction 1 as [|c l Hc _ IH]; simpl; [done|].
  rewrite IH. unfold not_comma, is_digit in *.
  destruct (c =? 44)%Z eqn:E; [|done]. apply Z.eqb_eq in E. subst c. done.
Qed.

(** Dropping the commas of [group3] gives the digits back, and the groups
    read from the right are groups of three. *)
Lemma group3_spec (n : nat) (r : pystr) :
  (length r <= n)%nat -> r <> [] -> Forall (fun c => is_digit c = true) r ->
  List.filter not_comma (group3 r) = r /\ grouped (rev (group3 r)).
Proof.
  revert r. induction n as [|n IH]; intros r Hlen Hne Hd.
  { destruct r; [done|simpl in Hlen; lia]. }
  destruct r as [|a [|b [|c [|d rest]]]]; try done.
  - split; [by apply digit_not_comma|]. apply grouped_first; [simpl; lia|].
    cbn [group3]. by apply Forall_rev.
  - split; [by apply digit_not_comma|]. apply grouped_first; [simpl; lia|].
    cbn [group3]. by apply Forall_rev.
  - split; [by apply digit_not_comma|]. apply grouped_first; [simpl; lia|].
    cbn [group3]. by apply Forall_rev.
  - inversion Hd as [|? ? Ha Hd1]; subst. inversion Hd1 as [|? ? Hb Hd2]; subst.
    inversion Hd2 as [|? ? Hc Hd3]; subst.
    destruct (IH (d :: rest)) as [Hf Hg]; [simpl in *; lia|done|done|].
    change (group3 (a :: b :: c :: d :: rest))
      with (a :: b :: c :: 44%Z :: group3 (d :: rest)).
    split.
    + change (a :: b :: c :: 44%Z :: group3 (d :: rest))
        with ([a; b; c] ++ [44%Z] ++ group3 (d :: rest)).
      rewrite !List.filter_app, Hf, digit_not_comma; [done|].
      by repeat constructor.
    + change (rev (a :: b :: c :: 44%Z :: group3 (d :: rest)))
        with ((((rev (group3 (d :: rest)) ++ [44%Z]) ++ [c]) ++ [b]) ++ [a]).
      rewrite <- !app_assoc. simpl.
      apply grouped_next; [done|done|]. by repeat constructor.
Qed.

Lemma thousands_spec (ds : pystr) :
  ds <> [] -> Forall (fun c => is_digit c = true) ds ->
  List.filter not_comma (thousands ds) = ds /\ grouped (thousands ds).
Proof.
  intros Hne Hd. unfold thousands.
  destruct (group3_spec (length (rev ds)) (rev ds)) as [Hf Hg].
  - done.
  - intros Hr. apply (f_equal (@rev Z)) in Hr. rewrite rev_involutive in Hr. done.
  - by apply Forall_rev.
  - split; [|done]. by rewrite List.filter_rev, Hf, rev_involutive.
Qed.

(** The text of a finite amount: an optional minus sign, the integer digits
    in groups of three, a point and exactly two decimals; read without the
    commas and the point, the digits are the amount in cents, rounded half to
    even. *)
Lemma format_2f_shape (q : Q) :
  exists (ds : pystr) (d1 d2 : Z),
    format_2f (Fin q)
    = (if Qlt_le_dec q 0 then [45%Z] else []) ++ thousands ds ++ [46%Z; d1; d2] /\
    grouped (thousands ds) /\
    List.filter not_comma (thousands ds) = ds /\
    is_digit d1 = true /\ is_digit d2 = true /\
    digits_value (ds ++ [d1; d2]) = Z.abs (round_half_even (q * 100)).
Proof.
  set (cents := Z.abs (round_half_even (q * 100))).
  assert (Hc : (0 <= cents)%Z) by apply Z.abs_nonneg.
  exists (decimal (cents / 100)), (48 + cents mod 100 / 10)%Z, (48 + cents mod 10)%Z.
  pose proof (Z.mod_pos_bound cents 100 ltac:(lia)) as H100.
  pose proof (Z.mod_pos_bound cents 10 ltac:(lia)) as H10.
  assert (Hd1 : (0 <= cents mod 100 / 10 < 10)%Z).
  { split; [apply Z.div_pos; lia|apply Z.div_lt_upper_bound; lia]. }
  destruct (thousands_spec (decimal (cents / 100))) as [Hf Hg].
  { apply decimal_nonempty. }
  { apply uint_codes_digits. }
  split; [done|]. split; [done|]. split; [done|].
  split; [unfold is_digit; lia|]. split; [unfold is_digit; lia|].
  rewrite digits_value_app, digits_value_decimal by (apply Z.div_pos; lia).
  cbn [fold_left].
  pose proof (Z.div_mod cents 100 ltac:(lia)) as E1.
  pose proof (Z.div_mod (cents mod 100) 10 ltac:(lia)) as E2.
  assert (E3 : ((cents mod 100) mod 10 = cents mod 10)%Z).
  { apply Z.mod_mod_divide. exists 10%Z. lia. }
  lia.
Qed.

Section FormatPriceFacts.
Context `{Runtime}.


End FormatPriceFacts.


(** * Further properties of the script *)

(** ** The feature vector, whatever the columns object holds *)

(** What a built vector looks like, for any object under [data_columns] (a
    list, but also a string, on which [len] and [index] work as well). *)
Lemma feature_vector_Ok_inv (columns : pyobj) (area bath bhk : Q)
    (location : pystr) (x : list Q) :
  feature_vector columns area bath bhk location = Ok x ->
  exists n i : nat,
    py_len columns = Ok n /\ py_index columns location = Ok i /\
    (3 <= n)%nat /\ (i < n)%nat /\
    x = <[i:=1%Q]> (area :: bath :: bhk :: replicate (n - 3) 0%Q).
Proof.
  unfold feature_vector.
  destruct (py_len columns) as [n|e]; [|done]. rewrite result_bind_Ok.
  destruct n as [|[|[|n]]]; try done.
  unfold np_zeros. cbn [replicate].
  repeat (rewrite np_setitem_lt by (simpl; lia); rewrite result_bind_Ok;
          cbn [insert list_insert]).
  destruct (py_index columns location) as [i|e]; [|done].
  rewrite result_bind_Ok. unfold np_setitem.
  destruct (decide _) as [Hi|Hi]; [|done].
  intros [= <-]. simpl in Hi. rewrite length_replicate in Hi.
  exists (S (S (S n))), i. repeat split; try done; try lia.
  by replace (S (S (S n)) - 3)%nat with n by lia.
Qed.

(** X1: on a column list the vector is built exactly when the list has at
    least three columns and contains the location. *)
Theorem feature_vector_built_iff (names : list pystr) (area bath bhk : Q)
    (location : pystr) :
  (exists x, feature_vector (schema names) area bath bhk location = Ok x) <->
  (3 <= length names)%nat /\ location ∈ names.
Proof.
  split.
  - intros [x Hx].
    apply feature_vector_Ok_inv in Hx as (n & i & Hn & Hi & H3 & _ & _).
    simpl in Hn. rewrite length_fmap in Hn. injection Hn as <-.
    split; [done|].
    rewrite py_index_schema in Hi.
    destruct (find_index _ names) as [k|] eqn:Hk; [|done].
    apply find_index_Some in Hk as (a & Ha & Hp & _).
    apply bool_decide_eq_true in Hp as ->.
    by eapply list_elem_of_lookup_2.
  - intros [H3 Hin].
    destruct (find_index_elem _ _ Hin) as [i Hi].
    pose proof (find_index_Some _ _ _ Hi) as (a & Ha & _).
    apply lookup_lt_Some in Ha.
    destruct names as [|a1 [|a2 [|a3 rest]]]; try (simpl in H3; lia).
    exists (<[i:=1%Q]> (area :: bath :: bhk :: replicate (length rest) 0%Q)).
    unfold feature_vector. rewrite py_index_schema, Hi.
    cbn [py_len schema]. rewrite length_fmap, result_bind_Ok.
    unfold np_zeros. cbn [length replicate].
    repeat (rewrite np_setitem_lt by (simpl; lia); rewrite result_bind_Ok;
            cbn [insert list_insert]).
    rewrite result_bind_Ok, np_setitem_lt; [done|].
    simpl in Ha |- *. rewrite length_replicate. lia.
Qed.

(** X2: a built vector has one entry per element of the columns object, 1 at
    the position [index] returned (also when that is one of the first three
    positions), the raw inputs in the other positions among 0, 1, 2, and 0
    everywhere else. *)
Theorem feature_vector_entries (columns : pyobj) (area bath bhk : Q)
    (location : pystr) (x : list Q) :
  feature_vector columns area bath bhk location = Ok x ->
  exists n i : nat,
    py_len columns = Ok n /\ py_index columns location = Ok i /\
    length x = n /\ (3 <= n)%nat /\ (i < n)%nat /\
    x !! i = Some 1%Q /\
    (i <> 0%nat -> x !! 0%nat = Some area) /\
    (i <> 1%nat -> x !! 1%nat = Some bath) /\
    (i <> 2%nat -> x !! 2%nat = Some bhk) /\
    (forall j, (3 <= j < n)%nat -> j <> i -> x !! j = Some 0%Q).
Proof.
  intros Hx.
  apply feature_vector_Ok_inv in Hx as (n & i & Hn & Hi & H3 & Hin & ->).
  exists n, i.
  assert (Hlen : length (area :: bath :: bhk :: replicate (n - 3) 0%Q) = n).
  { simpl. rewrite length_replicate. lia. }
  split; [done|]. split; [done|].
  split; [by rewrite length_insert|]. split; [done|]. split; [done|].
  split; [apply list_lookup_insert_eq; lia|].
  split; [intros; by rewrite list_lookup_insert_ne|].
  split; [intros; by rewrite list_lookup_insert_ne|].
  split; [intros; by rewrite list_lookup_insert_ne|].
  intros j [Hj3 Hjn] Hne. rewrite list_lookup_insert_ne by done.
  destruct j as [|[|[|j]]]; try lia. simpl.
  apply lookup_replicate_2. lia.
Qed.

Lemma feature_vector_entries_string_columns :
  feature_vector (PyStr (py "area,loc_a,loc_b")) 1000 2 3 (py "loc_b")
  = Ok [1000; 2; 3; 0; 0; 0; 0; 0; 0; 0; 0; 1; 0; 0; 0; 0]%Q /\
  exists n i : nat,
    py_len (PyStr (py "area,loc_a,loc_b")) = Ok n /\
    py_index (PyStr (py "area,loc_a,loc_b")) (py "loc_b") = Ok i /\
    length [1000; 2; 3; 0; 0; 0; 0; 0; 0; 0; 0; 1; 0; 0; 0; 0]%Q = n /\
    (3 <= n)%nat /\ (i < n)%nat /\
    [1000; 2; 3; 0; 0; 0; 0; 0; 0; 0; 0; 1; 0; 0; 0; 0]%Q !! i = Some 1%Q /\
    (i <> 0%nat ->
     [1000; 2; 3; 0; 0; 0; 0; 0; 0; 0; 0; 1; 0; 0; 0; 0]%Q !! 0%nat
     = Some 1000%Q) /\
    (i <> 1%nat ->
     [1000; 2; 3; 0; 0; 0; 0; 0; 0; 0; 0; 1; 0; 0; 0; 0]%Q !! 1%nat
     = Some 2%Q) /\
    (i <> 2%nat ->
     [1000; 2; 3; 0; 0; 0; 0; 0; 0; 0; 0; 1; 0; 0; 0; 0]%Q !! 2%nat
     = Some 3%Q) /\
    (forall j, (3 <= j < n)%nat -> j <> i ->
               [1000; 2; 3; 0; 0; 0; 0; 0; 0; 0; 0; 1; 0; 0; 0; 0]%Q !! j
               = Some 0%Q).
Proof.
  assert (Hx : feature_vector (PyStr (py "area,loc_a,loc_b")) 1000 2 3 (py "loc_b")
               = Ok [1000; 2; 3; 0; 0; 0; 0; 0; 0; 0; 0; 1; 0; 0; 0; 0]%Q)
    by (by vm_compute).
  split; [exact Hx|].
  exact (feature_vector_entries _ _ _ _ _ _ Hx).
Defined.

(** ** The handler as a whole *)

Lemma shown_nil (w : world) : shown w [] = w.
Proof. destruct w. unfold shown. simpl. by rewrite app_nil_r. Qed.

(** What the block after the prediction does, by cases. *)
Lemma roi_then_environment (fuel : nat) (p : Q) (location : pystr) (w : world) :
  (roi_analysis p;; environmental_analysis fuel location) w =
  if valid_seed (seed_of location) then
    match draws fuel (seed_of location) with
    | Some (aqi, noise, u, st) =>
        Done tt (World st (page w ++ roi_cards p
                             ++ environmental_cards aqi noise u))
    | None => Timeout
    end
  else Raised ValueError (shown w (roi_cards p)).
Proof.
  rewrite bind_eq, roi_analysis_eq, environmental_analysis_eq.
  destruct (valid_seed (seed_of location)); [|done].
  destruct (draws fuel (seed_of location)) as [[[[aqi noise] u] st]|]; [|done].
  unfold shown. cbn [page]. by rewrite <- app_assoc.
Qed.




(** ** Seeds that are accepted *)

Lemma seed_of_bounds (location : pystr) :
  Forall is_code_point location ->
  (0 <= seed_of location <= 1114111 * Z.of_nat (length location))%Z.
Proof.
  induction 1 as [|c l Hc _ IH].
  - done.
  - rewrite seed_of_cons. unfold is_code_point in Hc.
    cbn [length]. lia.
Qed.

Lemma seed_of_app (l1 l2 : pystr) :
  seed_of (l1 ++ l2) = (seed_of l1 + seed_of l2)%Z.
Proof.
  induction l1 as [|c l1 IH]; [done|].
  rewrite <- app_comm_cons, !seed_of_cons, IH. lia.
Qed.

(** X5: [np.random.seed] accepts the seed of every location of at most 3855
    characters, so for such a location the environmental block raises
    nothing: either it shows its three figures or its rejection loop is still
    running. *)
Theorem short_location_seed_accepted (fuel : nat) (location : pystr)
    (w : world) :
  Forall is_code_point location -> (length location <= 3855)%nat ->
  valid_seed (seed_of location) = true /\
  match environmental_analysis fuel location w with
  | Done _ w' =>
      exists aqi noise u,
        page w' = page w ++ environmental_cards aqi noise u
  | Timeout => draws fuel (seed_of location) = None
  | Raised _ _ | Halted _ => False
  end.
Proof.
  intros Hcp Hlen.
  pose proof (seed_of_bounds location Hcp) as [Hs1 Hs2].
  assert (Hv : valid_seed (seed_of location) = true).
  { unfold valid_seed. apply andb_true_iff. split; apply Z.leb_le; lia. }
  split; [exact Hv|].
  rewrite environmental_analysis_eq, Hv.
  destruct (draws fuel (seed_of location)) as [[[[aqi noise] u] st]|]; [|done].
  cbn [page]. by exists aqi, noise, u.
Qed.

Lemma short_location_seed_accepted_civil_lines :
  Forall is_code_point (py "civil lines") /\
  (length (py "civil lines") <= 3855)%nat /\
  valid_seed (seed_of (py "civil lines")) = true /\
  match environmental_analysis 8 (py "civil lines") w0 with
  | Done _ w' =>
      exists aqi noise u,
        page w' = page w0 ++ environmental_cards aqi noise u
  | Timeout => draws 8 (seed_of (py "civil lines")) = None
  | Raised _ _ | Halted _ => False
  end.
Proof.
  assert (H1 : Forall is_code_point (py "civil lines")).
  { apply Forall_forall. intros c Hc. apply list_elem_of_In in Hc.
    unfold is_code_point. vm_compute in Hc.
    repeat (destruct Hc as [<-|Hc]; [lia|]). destruct Hc. }
  assert (H2 : (length (py "civil lines") <= 3855)%nat) by (vm_compute; lia).
  split; [exact H1|]. split; [exact H2|].
  exact (short_location_seed_accepted 8 (py "civil lines") w0 H1 H2).
Defined.

(** The bound is sharp: 3856 characters can exceed it. *)
Lemma long_location_seed_refused :
  Forall is_code_point long_location /\ length long_location = 3856%nat /\
  valid_seed (seed_of long_location) = false.
Proof.
  split; [|split; by vm_compute].
  unfold long_location. apply Forall_replicate. unfold is_code_point. lia.
Qed.

(** ** When [format_price] raises, and with what [load_model] fails *)

Section Exceptions.
Context `{Runtime}.

(** [float(str)] raises nothing but [ValueError]. *)
Lemma float_from_string_raises (s : pystr) (e : exn) :
  float_from_string s = Raise e -> e = ValueError.
Proof.
  unfold float_from_string.
  destruct (strip_underscores 0 _) as [s'|]; [|by intros [= <-]].
  destruct (match parse_decimal (strip s') with
            | Some r => Some r
            | None => parse_inf_or_nan (strip s')
            end) as [[x [|c rest]]|]; [done|by intros [= <-]..].
Qed.

(** X6: [format_price] raises exactly for an integer whose magnitude reaches
    the overflow threshold of floats, [2**1024 - 2**970], and then with
    [OverflowError]; on every other value it returns a text that starts with
    the rupee sign. *)
Theorem format_price_raises_iff (price : pyobj) (e : exn) :
  (format_price price = Raise e <->
   e = OverflowError /\
   exists z, price = PyInt z /\ (overflow_threshold <= Z.abs z)%Z) /\
  (forall text, format_price price = Ok text ->
                exists body, text = rupee :: body).
Proof.
  split.
  - unfold format_price. split.
    + destruct (py_float price) as [f|e0] eqn:Hf; [done|].
      destruct (is_ValueError e0 || is_TypeError e0) eqn:Hc; [done|].
      intros [= <-].
      destruct price as [|b|z|f|s|l|kv]; simpl in Hf; try done;
        try (injection Hf as <-; done).
      * destruct (overflow_threshold <=? Z.abs z)%Z eqn:E; [|done].
        injection Hf as <-. apply Z.leb_le in E. eauto.
      * apply float_from_string_raises in Hf as ->. done.
    + intros (-> & z & -> & Hz). simpl.
      apply Z.leb_le in Hz. by rewrite Hz.
  - intros text. unfold format_price.
    destruct (py_float price) as [f|e0]; [intros [= <-]; eauto|].
    destruct (is_ValueError e0 || is_TypeError e0); [|done].
    intros [= <-]. eauto.
Qed.

(** X8: the exception [load_model] fails with is that of its first failing
    step.  A model file that cannot be opened gives [OSError] and a pickle
    that does not load gives its own exception, whatever the state of the
    columns file; once the model is loaded, a columns file that cannot be
    opened gives [OSError], JSON that is not an object gives [TypeError], and
    an object without the key [data_columns] gives [KeyError]. *)
Theorem load_model_exception (d : disk) :
  (d model_path = None -> load_model d = Raise OSError) /\
  (forall mb e, d model_path = Some mb -> pickle_load mb = Raise e ->
                load_model d = Raise e) /\
  (forall mb m, d model_path = Some mb -> pickle_load mb = Ok m ->
     (d columns_path = None -> load_model d = Raise OSError) /\
     (forall cb e, d columns_path = Some cb -> json_load cb = Raise e ->
                   load_model d = Raise e) /\
     (forall cb obj, d columns_path = Some cb -> json_load cb = Ok obj ->
        (forall kv, obj = PyDict kv ->
                    dict_lookup kv (py "data_columns") = None ->
                    load_model d = Raise KeyError) /\
        (forall kv v, obj = PyDict kv ->
                      dict_lookup kv (py "data_columns") = Some v ->
                      load_model d = Ok (m, v)) /\
        ((forall kv, obj <> PyDict kv) -> load_model d = Raise TypeError))).
Proof.
  assert (Hget : forall kv k,
            dict_get kv k = match dict_lookup kv k with
                            | Some v => Ok v
                            | None => Raise KeyError
                            end).
  { intros kv k. induction kv as [|[k' v] kv IH]; simpl; [done|].
    by destruct (bool_decide (k' = k)). }
  unfold load_model, py_open.
  split; [by intros ->|].
  split; [intros mb e -> Hm; by rewrite result_bind_Ok, Hm|].
  intros mb m -> Hm. rewrite result_bind_Ok, Hm, result_bind_Ok.
  split; [by intros ->|].
  split; [intros cb e -> Hj; by rewrite result_bind_Ok, Hj|].
  intros cb obj -> Hj. rewrite result_bind_Ok, Hj, result_bind_Ok.
  split; [|split].
  - intros kv -> Hk. simpl. by rewrite Hget, Hk.
  - intros kv v -> Hk. simpl. by rewrite Hget, Hk.
  - intros Hno. destruct obj; try done. by destruct (Hno kv).
Qed.

End Exceptions.

(** ** Market statistics and the chart *)

Lemma get_price_per_sqft_default (model : Model) (columns : pyobj)
    (location : pystr) (w : world) :
  get_price_per_sqft model columns location 1000 2 2 w
  = Done (price_sqft model columns location)
         (shown w (price_sqft_errors model columns location)).
Proof.
  rewrite get_price_per_sqft_eq. unfold price_sqft, price_sqft_errors.
  destruct (_ ≫= _); [by rewrite shown_nil|done].
Qed.

(** The loop of the chart over any list of locations. *)
Lemma popular_loop_eq (model : Model) (columns : pyobj) (locs : list pystr)
    (locations_data : list (pystr * float64)) (w : world) :
  popular_loop model columns locs locations_data w
  = Done (foldl (fun d loc => dict_set d (title loc) (price_sqft model columns loc))
                locations_data locs)
         (shown w (locs ≫= price_sqft_errors model columns)).
Proof.
  revert locations_data w.
  induction locs as [|loc locs IH]; intros locations_data w.
  - cbn [popular_loop foldl]. by rewrite shown_nil.
  - cbn [popular_loop foldl].
    rewrite bind_eq, get_price_per_sqft_default, IH, shown_shown. done.
Qed.

Lemma chart_data_eq (model : Model) (columns : pyobj) :
  foldl (fun d loc => dict_set d (title loc) (price_sqft model columns loc))
        [] popular_locations
  = chart_data model columns.
Proof. reflexivity. Qed.

(** The handler ends in one of two ways. *)
Lemma predict_button_handler_cases (fuel : nat) (model : Model)
    (columns : pyobj) (area bathrooms bedrooms : Q) (location : pystr)
    (w : world) :
  (exists evs st,
     predict_button_handler fuel model columns area bathrooms bedrooms
                            location w
     = Done tt (World st (page w ++ evs))) \/
  (predict_button_handler fuel model columns area bathrooms bedrooms location w
   = Timeout /\ draws fuel (seed_of location) = None).
Proof.
  rewrite predict_button_handler_eq.
  destruct (_ ≫= _) as [p|e]; [|left; by eexists _, _].
  rewrite roi_then_environment. unfold shown. cbn [page generator].
  destruct (valid_seed (seed_of location)).
  - destruct (draws fuel (seed_of location)) as [[[[aqi noise] u] st]|];
      [|by right].
    left. eexists _, st. by rewrite <- !app_assoc.
  - left. eexists _, _. cbn [page generator]. by rewrite <- !app_assoc.
Qed.

(** X9: the loop of the chart always finishes, whatever the model and the
    columns, with five bars in the order of the source, titled with the
    capitalised names; a location whose price cannot be computed gives a bar
    of 0 and one error on the page, every other its prediction for 1000 sq
    ft, 2 BHK and 2 baths divided by 1000; the generator is not touched. *)
Theorem popular_loop_chart (model : Model) (columns : pyobj) (w : world) :
  popular_loop model columns popular_locations [] w
  = Done (chart_data model columns) (shown w (chart_errors model columns)) /\
  (chart_data model columns).*1
  = py <$> ["Malviya Nagar"; "Vaishali Nagar"; "Civil Lines"; "Bapu Nagar";
            "Mansarovar Ext."]%string /\
  Forall2 (fun loc bar =>
             (forall e, feature_vector columns 1000 2 2 loc ≫= predict_first model
                        = Raise e ->
                        bar.2 = Fin 0 /\
                        price_sqft_errors model columns loc = [price_error e]) /\
             (forall p, feature_vector columns 1000 2 2 loc ≫= predict_first model
                        = Ok p ->
                        bar.2 = Fin (p / 1000) /\
                        price_sqft_errors model columns loc = []))
          popular_locations (chart_data model columns).
Proof.
  split; [by rewrite popular_loop_eq, chart_data_eq|].
  split; [by vm_compute|].
  unfold chart_data. apply Forall2_fmap_r, Forall_Forall2_diag, Forall_forall.
  intros loc _. cbn [snd]. unfold price_sqft, price_sqft_errors. split.
  - by intros e ->.
  - intros p ->. split; [|done]. by apply np_true_divide_pos.
Qed.

(** X10: after the start-up the Market Statistics card and the chart are
    shown whenever the handler returns, and they are the same function of the
    model, the columns and the selected location, whatever the area, the
    numbers of rooms, the button and the state of the generator; the script
    raises nothing and does not stop. *)
Theorem serve_shows_market (fuel : nat) (model : Model) (columns : pyobj)
    (inp : inputs) (w : world) :
  (predict_button inp = false ->
   serve fuel model columns inp w
   = Done tt (shown w (market_events model columns (location inp)))) /\
  (predict_button inp = true ->
   (exists evs st,
      serve fuel model columns inp w
      = Done tt (World st (page w ++ evs
                             ++ market_events model columns (location inp)))) \/
   (serve fuel model columns inp w = Timeout /\
    draws fuel (seed_of (location inp)) = None)).
Proof.
  assert (Hrest : forall w1,
    (avg_price_sqft ← get_price_per_sqft model columns (location inp) 1000 2 2;
     emit (ShowAverage avg_price_sqft);;
     locations_data ← popular_loop model columns popular_locations [];
     emit (ShowChart locations_data)) w1
    = Done tt (shown w1 (market_events model columns (location inp)))).
  { intros w1.
    rewrite bind_eq, get_price_per_sqft_default, bind_emit, bind_eq.
    rewrite popular_loop_eq, chart_data_eq, emit_eq, !shown_shown.
    unfold market_events, chart_errors. by rewrite <- ?app_assoc. }
  unfold serve. split; intros Hb; rewrite Hb.
  - rewrite bind_eq. cbv beta delta [mret Script_ret]. apply Hrest.
  - rewrite bind_eq.
    destruct (predict_button_handler_cases fuel model columns (area inp)
                (bathrooms inp) (bedrooms inp) (location inp) w)
      as [(evs & st & ->)|[-> Hd]]; [left|by right].
    exists evs, st. rewrite Hrest. unfold shown. cbn [page generator].
    by rewrite <- app_assoc.
Qed.



(** ** The ROI values grow with the horizon *)

Lemma round_half_even_mono (q q' : Q) :
  (q <= q')%Q -> (round_half_even q <= round_half_even q')%Z.
Proof.
  intros Hq.
  pose proof (Qfloor_resp_le _ _ Hq) as Hf.
  pose proof (round_half_even_bounds q) as [_ Hb].
  pose proof (round_half_even_bounds q') as [Hb' _].
  destruct (Z.eq_dec (Qfloor q) (Qfloor q')) as [E|E]; [|lia].
  unfold round_half_even. rewrite <- E.
  destruct (Qcompare (q - inject_Z (Qfloor q)) (1 # 2)) eqn:C;
    destruct (Qcompare (q' - inject_Z (Qfloor q)) (1 # 2)) eqn:C';
    try (destruct (Z.even (Qfloor q)); lia); exfalso.
  - apply Qeq_alt in C. apply Qlt_alt in C'. lra.
  - apply Qgt_alt in C. apply Qeq_alt in C'. lra.
  - apply Qgt_alt in C. apply Qlt_alt in C'. lra.
Qed.

Lemma round2_mono (v v' : Q) : (v <= v')%Q -> (round2 v <= round2 v')%Q.
Proof.
  intros Hv. unfold round2.
  assert (H : (round_half_even (v * 100) <= round_half_even (v' * 100))%Z).
  { apply round_half_even_mono. lra. }
  unfold Qle. simpl. lia.
Qed.

(** X12: for a non-negative prediction the three projected values never
    decrease with the horizon, and none is below the prediction rounded to
    2 decimals. *)
Theorem roi_values_grow (predicted_price : Q) (w : world) :
  (0 <= predicted_price)%Q ->
  exists (v5 v10 v15 : Q) (g5 g10 g15 : float64),
    roi_analysis predicted_price w
    = Done tt (shown w [ShowROI 5 v5 g5; ShowROI 10 v10 g10; ShowROI 15 v15 g15]) /\
    (round2 predicted_price <= v5)%Q /\ (v5 <= v10)%Q /\ (v10 <= v15)%Q.
Proof.
  intros Hp. eexists _, _, _, _, _, _.
  split; [apply roi_analysis_eq|].
  assert (H5 : (1 <= (1 + annual_growth_rate) ^ 5)%Q) by (by vm_compute).
  assert (H10 : ((1 + annual_growth_rate) ^ 5 <= (1 + annual_growth_rate) ^ 10)%Q)
    by (by vm_compute).
  assert (H15 : ((1 + annual_growth_rate) ^ 10 <= (1 + annual_growth_rate) ^ 15)%Q)
    by (by vm_compute).
  repeat split; apply round2_mono.
  - rewrite <- (Qmult_1_r predicted_price) at 1.
    rewrite !(Qmult_comm predicted_price). by apply Qmult_le_compat_r.
  - rewrite !(Qmult_comm predicted_price). by apply Qmult_le_compat_r.
  - rewrite !(Qmult_comm predicted_price). by apply Qmult_le_compat_r.
Qed.

Lemma roi_values_grow_million :
  (0 <= 1000000)%Q /\
  exists (v5 v10 v15 : Q) (g5 g10 g15 : float64),
    roi_analysis 1000000 w0
    = Done tt (shown w0 [ShowROI 5 v5 g5; ShowROI 10 v10 g10;
                         ShowROI 15 v15 g15]) /\
    (round2 1000000 <= v5)%Q /\ (v5 <= v10)%Q /\ (v10 <= v15)%Q.
Proof.
  assert (Hp : (0 <= 1000000)%Q) by (by vm_compute).
  split; [exact Hp|].
  exact (roi_values_grow 1000000 w0 Hp).
Defined.

(** ** The colours of the cards against their legends *)

(** X13: the colour of each environmental card is the colour of the band its
    legend names, except on the borders of the bands: an air quality index
    of 100 or 150, a noise level of 50 or 70 and a green space of exactly 10
    get the colour of the next worse band. *)
Theorem colors_match_legends_off_borders :
  (forall aqi : Z,
     aqi_color aqi = aqi_legend aqi <-> aqi <> 100%Z /\ aqi <> 150%Z) /\
  (forall noise : Z,
     noise_color noise = noise_legend noise <-> noise <> 50%Z /\ noise <> 70%Z) /\
  (forall green : Q,
     green_color green = green_legend green <-> ~ (green == 10)%Q).
Proof.
  assert (Hgm : color_good <> color_moderate) by (by vm_compute).
  assert (Hmp : color_moderate <> color_poor) by (by vm_compute).
  assert (Hgp : color_good <> color_poor) by (by vm_compute).
  split; [|split].
  - intros aqi. unfold aqi_color, aqi_legend.
    destruct (aqi <? 100)%Z eqn:E1, (aqi <? 150)%Z eqn:E2,
             (aqi <=? 100)%Z eqn:E3, (aqi <=? 150)%Z eqn:E4;
      rewrite ?Z.ltb_lt, ?Z.ltb_ge, ?Z.leb_le, ?Z.leb_gt in *;
      split; try done; try lia; intros; exfalso; lia.
  - intros noise. unfold noise_color, noise_legend.
    destruct (noise <? 50)%Z eqn:E1, (noise <? 70)%Z eqn:E2,
             (noise <=? 50)%Z eqn:E3, (noise <=? 70)%Z eqn:E4;
      rewrite ?Z.ltb_lt, ?Z.ltb_ge, ?Z.leb_le, ?Z.leb_gt in *;
      split; try done; try lia; intros; exfalso; lia.
  - intros green. unfold green_color, green_legend.
    destruct (Qlt_le_dec 20 green), (Qlt_le_dec 10 green),
             (Qlt_le_dec green 10); split; try done;
      try (intros _ Heq; lra); try (intros Hne; exfalso; lra).
Qed.

(** The noise level of "malviya nagar" sits on such a border. *)
Lemma malviya_nagar_noise_on_border :
  profile_of 8 (py "malviya nagar") = Some (87, 50, 2491 # 100)%Z /\
  noise_color 50 = color_moderate /\ noise_legend 50 = color_good.
Proof. split; [by vm_compute|]. split; by vm_compute. Qed.

(** ** Reading a formatted amount back *)

Section ReadBack.
Context `{Runtime}.

Lemma transform_ascii (s : pystr) :
  Forall (fun c => (c < 127)%Z) s -> transform_decimal_and_space s = s.
Proof.
  induction 1 as [|c s Hc _ IH]; simpl; [done|].
  apply Z.ltb_lt in Hc. by rewrite Hc, IH.
Qed.

Lemma strip_underscores_none (s : pystr) (prev : Z) :
  prev <> 95%Z -> Forall (fun c => c <> 95%Z) s ->
  strip_underscores prev s = Some s.
Proof.
  intros Hprev Hs. revert prev Hprev.
  induction Hs as [|c s Hc _ IH]; intros prev Hprev; simpl.
  - apply Z.eqb_neq in Hprev. by rewrite Hprev.
  - apply Z.eqb_neq in Hprev. rewrite Hprev.
    pose proof Hc as Hc'. apply Z.eqb_neq in Hc'. rewrite Hc'. simpl.
    by rewrite IH.
Qed.

Lemma strip_id (c d : Z) (s : pystr) :
  is_space c = false -> is_space d = false ->
  strip ((c :: s) ++ [d]) = (c :: s) ++ [d].
Proof.
  intros Hc Hd. unfold strip.
  assert (H1 : lstrip ((c :: s) ++ [d]) = (c :: s) ++ [d]).
  { simpl. by rewrite Hc. }
  rewrite H1, rev_app_distr. simpl. rewrite Hd.
  change (d :: rev s ++ [c]) with ([d] ++ (rev s ++ [c])).
  rewrite rev_app_distr, rev_app_distr, rev_involutive. done.
Qed.

Lemma span_digits_app (ds rest : pystr) :
  Forall (fun c => is_digit c = true) ds ->
  match rest with
  | [] => True
  | c :: _ => is_digit c = false
  end ->
  span_digits (ds ++ rest) = (ds, rest).
Proof.
  intros Hds Hrest.
  induction Hds as [|c ds Hc _ IH]; simpl.
  - destruct rest as [|c rest]; [done|]. simpl. by rewrite Hrest.
  - by rewrite Hc, IH.
Qed.

Lemma split_sign_digit (c : Z) (s : pystr) :
  is_digit c = true -> split_sign (c :: s) = (false, c :: s).
Proof.
  intros Hc. unfold is_digit in Hc.
  apply andb_true_iff in Hc as [H1 H2].
  apply Z.leb_le in H1, H2.
  unfold split_sign.
  destruct c as [|p|p]; try done.
  do 6 (destruct p as [p|p|]; try done); lia.
Qed.

(** The digits part of a number read by [parse_decimal]. *)
Lemma parse_decimal_digits (neg : bool) (ds : pystr) (d1 d2 : Z) :
  ds <> [] -> Forall (fun c => is_digit c = true) ds ->
  is_digit d1 = true -> is_digit d2 = true ->
  parse_decimal ((if neg then [45%Z] else []) ++ ds ++ [46%Z; d1; d2])
  = Some (finite_or_inf
            (let q := (inject_Z (digits_value (ds ++ [d1; d2])) * (1 # 100))%Q in
             if neg then (- q)%Q else q), []).
Proof.
  intros Hne Hds Hd1 Hd2. unfold parse_decimal.
  assert (Hsign : split_sign ((if neg then [45%Z] else []) ++ ds ++ [46%Z; d1; d2])
                  = (neg, ds ++ [46%Z; d1; d2])).
  { destruct neg; [done|]. destruct ds as [|c ds]; [done|].
    inversion Hds; subst. by apply split_sign_digit. }
  rewrite Hsign.
  rewrite (span_digits_app ds [46%Z; d1; d2]) by done.
  assert (Hfp : span_digits [d1; d2] = ([d1; d2], [])).
  { apply (span_digits_app [d1; d2] []); [by repeat constructor|done]. }
  rewrite Hfp.
  destruct (ds ++ [d1; d2]) as [|c l] eqn:E.
  { by apply app_eq_nil in E as [? _]. }
  rewrite <- E. cbn [parse_exponent length].
  destruct neg; reflexivity.
Qed.

Lemma finite_or_inf_Fin (q : Q) :
  (Qabs q < inject_Z overflow_threshold)%Q -> finite_or_inf q = Fin q.
Proof.
  intros Hq. unfold finite_or_inf.
  assert (H1 : (q < inject_Z overflow_threshold)%Q).
  { eapply Qle_lt_trans; [apply Qle_Qabs|done]. }
  assert (H2 : (- inject_Z overflow_threshold < q)%Q).
  { apply Qabs_Qlt_condition in Hq as [Hq _]. exact Hq. }
  destruct (Qle_bool (inject_Z overflow_threshold) q) eqn:E1.
  { apply Qle_bool_iff in E1. lra. }
  destruct (Qle_bool q (- inject_Z overflow_threshold)) eqn:E2.
  { apply Qle_bool_iff in E2. lra. }
  done.
Qed.


End ReadBack.


(** ** A run of the handler without failure *)

(** X14: when the vector is built, the model predicts and the three draws
    finish, the handler shows exactly seven cards, in this order: the
    prediction with the price per square foot, the ROI values for 5, 10 and
    15 years, the air quality index, the noise level and the green space;
    it shows no error, and it leaves the generator in the state after the
    draws. *)
Theorem handler_shows_seven_cards (fuel : nat) (model : Model)
    (columns : pyobj) (area bathrooms bedrooms : Q) (location : pystr)
    (x : list Q) (p : Q) (aqi noise : Z) (u : Q) (st : MT19937.state)
    (w : world) :
  feature_vector columns area bathrooms bedrooms location = Ok x ->
  predict_first model x = Ok p ->
  valid_seed (seed_of location) = true ->
  draws fuel (seed_of location) = Some (aqi, noise, u, st) ->
  predict_button_handler fuel model columns area bathrooms bedrooms location w
  = Done tt (World st (page w
                         ++ [ShowPrediction p (np_true_divide p area)]
                         ++ roi_cards p
                         ++ [ShowAQI aqi; ShowNoise noise; ShowGreen (round2 u)])).
Proof.
  intros Hx Hp Hseed Hd.
  rewrite predict_button_handler_eq, Hx, result_bind_Ok, Hp.
  rewrite roi_then_environment, Hseed, Hd.
  unfold shown, environmental_cards. cbn [page]. by rewrite <- !app_assoc.
Qed.

Lemma handler_shows_seven_cards_scenario :
  exists (aqi noise : Z) (u : Q) (st : MT19937.state),
    feature_vector (schema scenario_names) 1000 2 3 (py "loc_b")
    = Ok [1000; 2; 3; 0; 1]%Q /\
    predict_first scenario_model [1000; 2; 3; 0; 1]%Q = Ok 6550000%Q /\
    valid_seed (seed_of (py "loc_b")) = true /\
    draws 8 (seed_of (py "loc_b")) = Some (aqi, noise, u, st) /\
    (aqi, noise, round2 u) = (167, 35, 2524 # 100)%Z /\
    predict_button_handler 8 scenario_model (schema scenario_names)
                           1000 2 3 (py "loc_b") w0
    = Done tt (World st
                 (page w0
                    ++ [ShowPrediction 6550000 (np_true_divide 6550000 1000)]
                    ++ roi_cards 6550000
                    ++ [ShowAQI aqi; ShowNoise noise; ShowGreen (round2 u)])).
Proof.
  destruct (draws 8 (seed_of (py "loc_b"))) as [[[[aqi noise] u] st]|] eqn:Hd;
    [|vm_compute in Hd; discriminate Hd].
  exists aqi, noise, u, st.
  assert (H1 : feature_vector (schema scenario_names) 1000 2 3 (py "loc_b")
               = Ok [1000; 2; 3; 0; 1]%Q) by (by vm_compute).
  assert (H2 : predict_first scenario_model [1000; 2; 3; 0; 1]%Q = Ok 6550000%Q)
    by (by vm_compute).
  assert (H3 : valid_seed (seed_of (py "loc_b")) = true) by (by vm_compute).
  assert (Hv : (aqi, noise, round2 u) = (167, 35, 2524 # 100)%Z).
  { pose proof Hd as Hd'. vm_compute in Hd'. by injection Hd' as <- <- <- _. }
  split; [exact H1|]. split; [exact H2|]. split; [exact H3|].
  split; [reflexivity|]. split; [exact Hv|].
  exact (handler_shows_seven_cards 8 scenario_model (schema scenario_names)
           1000 2 3 (py "loc_b") _ _ _ _ _ st w0 H1 H2 H3 Hd).
Defined.
